(** * The multi-client Word add-in backend (backend/server.js)

    A shallow embedding of the Express server and a verification of its
    request-handling contract: credential lookup, API-key resolution,
    prompt composition, extraction of the completion text, and the two
    flat-file stores (clients.json, assistants.json).

    Conventions of the embedding.
    - A JavaScript string is its sequence of UTF-16 code units.
    - A JavaScript value is one that JSON.parse can produce, undefined,
      or one of the members every object inherits from Object.prototype.
      A number is represented by its canonical decimal rendering
      (Number::toString), which determines every operation the server
      applies to a number: truthiness, [===], string conversion and [> 0].
    - A record of clients.json is an object with the three documented
      properties [id], [secret] and [openaiApiKey]; a property that is
      absent reads as undefined.
    - The override object [assistants] is used as a map from property keys
      to values. It is an ordinary object: the finite map of its own
      properties, under Object.prototype. A read falls back to the
      inherited member of that name, and an assignment to [__proto__]
      reaches the inherited setter unless the object has an own property
      of that name (JSON.parse creates one for a [__proto__] key of the
      file).
    - A file on disk is represented by what reading and parsing it gives:
      it is missing, it cannot be read or parsed, or it holds a value.
      [writeFileSync(path, JSON.stringify(v, null, 2))] is followed where
      it returns, and then leaves a file that parses back to [v]; a run in
      which the write throws is not described.
    - A handler suspends at most once, on the call to the completion API.
      It is modelled up to that point, together with the continuation that
      receives the outcome of the call and the state at that moment.
    - The task pane (frontend/taskpane.js), the caller of the endpoints,
      is modelled by the query-string parser and by the request body each
      of its functions sends. *)

From Stdlib Require Import NArith ZArith List String Ascii Bool Lia.
From stdpp Require Import base option list gmap.

Set Default Proof Using "Type".
#[local] Set Warnings "-register-all".
Local Open Scope N_scope.

(** ** Strings *)

Abbreviation jsstring := (list N).

(** Code units of a string literal, which this file holds in UTF-8. *)
Fixpoint utf16_of_utf8 (bs : list N) : jsstring :=
  match bs with
  | [] => []
  | b0 :: r0 =>
    if b0 <? 128 then b0 :: utf16_of_utf8 r0
    else
      match r0 with
      | [] => []
      | b1 :: r1 =>
        if b0 <? 224 then (b0 mod 32 * 64 + b1 mod 64) :: utf16_of_utf8 r1
        else
          match r1 with
          | [] => []
          | b2 :: r2 =>
            if b0 <? 240
            then (b0 mod 16 * 4096 + b1 mod 64 * 64 + b2 mod 64) :: utf16_of_utf8 r2
            else
              match r2 with
              | [] => []
              | b3 :: r3 =>
                let cp := b0 mod 8 * 262144 + b1 mod 64 * 4096 + b2 mod 64 * 64 + b3 mod 64 in
                (55296 + (cp - 65536) / 1024) :: (56320 + (cp - 65536) mod 1024)
                  :: utf16_of_utf8 r3
              end
          end
      end
  end.

Definition u (s : string) : jsstring :=
  utf16_of_utf8 (map N_of_ascii (list_ascii_of_string s)).
Arguments u s%_string.

Definition jsstring_eqb (a b : jsstring) : bool := bool_decide (a = b).

Definition LF : jsstring := [10].
Definition QUOTE : jsstring := [34].

(** ECMAScript WhiteSpace and LineTerminator code points, the ones
    String.prototype.trim strips. *)
Definition white_space : list N :=
  [9; 10; 11; 12; 13; 32; 160; 5760;
   8192; 8193; 8194; 8195; 8196; 8197; 8198; 8199; 8200; 8201; 8202;
   8232; 8233; 8239; 8287; 12288; 65279].

Definition is_white_space (c : N) : bool := existsb (N.eqb c) white_space.

Fixpoint trimStart (s : jsstring) : jsstring :=
  match s with
  | [] => []
  | c :: r => if is_white_space c then trimStart r else s
  end.

Definition trimEnd (s : jsstring) : jsstring := rev (trimStart (rev s)).

Definition trim (s : jsstring) : jsstring := trimEnd (trimStart s).

(** ** Values *)

(** [Builtin name] is the member [name] of Object.prototype: a native
    function, or Object.prototype itself for [__proto__]. *)
Inductive value :=
| Undefined
| Null
| Bool (b : bool)
| Num (repr : jsstring)
| Str (s : jsstring)
| Arr (elems : list value)
| Obj (props : list (jsstring * value))
| Builtin (name : jsstring).

(** ToBoolean. *)
Definition truthy (v : value) : bool :=
  match v with
  | Undefined | Null => false
  | Bool b => b
  | Num r => negb (jsstring_eqb r (u "0")) && negb (jsstring_eqb r (u "NaN"))
  | Str s => negb (jsstring_eqb s [])
  | Arr _ | Obj _ | Builtin _ => true
  end.

(** [a || b] *)
Definition js_or (a b : value) : value := if truthy a then a else b.

(** [a === b]. Arrays, objects and functions compare by identity; the two
    operands of every [===] in server.js come from different JSON.parse
    calls (a stored record and a request body), so they are never the same
    object. *)
Definition strict_eq (a b : value) : bool :=
  match a, b with
  | Undefined, Undefined | Null, Null => true
  | Bool x, Bool y => eqb x y
  | Num x, Num y => jsstring_eqb x y && negb (jsstring_eqb x (u "NaN"))
  | Str x, Str y => jsstring_eqb x y
  | _, _ => false
  end.

Fixpoint join_comma (l : list jsstring) : jsstring :=
  match l with
  | [] => []
  | [x] => x
  | x :: r => x ++ u "," ++ join_comma r
  end.

(** The names of the properties of Object.prototype. *)
Definition OBJECT_PROTOTYPE : list jsstring :=
  [u "constructor"; u "__defineGetter__"; u "__defineSetter__"; u "hasOwnProperty";
   u "__lookupGetter__"; u "__lookupSetter__"; u "isPrototypeOf";
   u "propertyIsEnumerable"; u "toString"; u "valueOf"; u "__proto__";
   u "toLocaleString"].

Definition PROTO : jsstring := u "__proto__".

(** The [name] property of the function that is the member [key] of
    Object.prototype: [Object.prototype.constructor] is [Object]. *)
Definition function_name (key : jsstring) : jsstring :=
  if jsstring_eqb key (u "constructor") then u "Object" else key.

(** The [length] property of that function, its number of parameters. *)
Definition function_length (key : jsstring) : N :=
  if bool_decide (key ∈ [u "toString"; u "valueOf"; u "toLocaleString"]) then 0
  else if bool_decide (key ∈ [u "__defineGetter__"; u "__defineSetter__"]) then 2
  else 1.

(** ToString, as applied by template literals and by property keys. *)
Fixpoint to_string (v : value) : jsstring :=
  match v with
  | Undefined => u "undefined"
  | Null => u "null"
  | Bool true => u "true"
  | Bool false => u "false"
  | Num r => r
  | Str s => s
  | Arr l =>
    join_comma
      (map (fun x => match x with Undefined | Null => [] | _ => to_string x end) l)
  | Obj _ => u "[object Object]"
  | Builtin name =>
    if jsstring_eqb name PROTO then u "[object Object]"
    else u "function " ++ function_name name ++ u "() { [native code] }"
  end.

Definition own_property (props : list (jsstring * value)) (name : jsstring) : value :=
  match List.find (fun p => jsstring_eqb (fst p) name) props with
  | Some p => snd p
  | None => Undefined
  end.

(** ** Errors

    What a [try] block of a handler can catch: an error raised by the
    runtime (a property read on undefined or null, a call of something
    that is not a function, a failing readFileSync or JSON.parse), or the
    rejection of the completion request, of which the handlers read only
    [err.message]. *)

Inductive runtime_error := TypeError | ReadError.

(** What the embedding leaves to the JavaScript engine: the comparison
    [StringToNumber(s) > 0] of a string with zero, and the message text
    of the errors the engine raises. *)
Class Engine := {
  string_gt_zero : jsstring -> bool;
  error_message : runtime_error -> value
}.

Inductive except (A : Type) :=
| Ok (a : A)
| Throw (e : runtime_error).
Arguments Ok {A} a.
Arguments Throw {A} e.

#[global] Instance except_ret : MRet except := fun A a => Ok a.
#[global] Instance except_bind : MBind except := fun A B f m =>
  match m with
  | Ok a => f a
  | Throw e => Throw e
  end.

(** [v.name] for a property name that no built-in prototype defines, and
    that is none of [name] and [length]. *)
Definition get (v : value) (name : jsstring) : except value :=
  match v with
  | Undefined | Null => Throw TypeError
  | Obj props => Ok (own_property props name)
  | _ => Ok Undefined
  end.

(** [v.trim()] *)
Definition call_trim (v : value) : except jsstring :=
  match v with
  | Str s => Ok (trim s)
  | _ => Throw TypeError
  end.

(** ** The two stores *)

Inductive file (A : Type) :=
| Missing
| Unreadable
| Holds (content : A).
Arguments Missing {A}.
Arguments Unreadable {A}.
Arguments Holds {A} content.

Module Client.
Record t := mk { id : value; secret : value; openaiApiKey : value }.

(** [c.openaiApiKey = apiKey] *)
Definition set_openaiApiKey (apiKey : value) (c : t) : t :=
  {| id := id c; secret := secret c; openaiApiKey := apiKey |}.
End Client.

Record state := mkState {
  clients : list Client.t;
  assistants : gmap jsstring value;
  clientsFile : file (list Client.t);
  assistantsFile : file (gmap jsstring value);
  OPENAI_API_KEY : value
}.

Definition set_assistants (a : gmap jsstring value) (s : state) : state :=
  {| clients := clients s; assistants := a; clientsFile := clientsFile s;
     assistantsFile := assistantsFile s; OPENAI_API_KEY := OPENAI_API_KEY s |}.

Definition write_assistantsFile (a : gmap jsstring value) (s : state) : state :=
  {| clients := clients s; assistants := assistants s; clientsFile := clientsFile s;
     assistantsFile := Holds a; OPENAI_API_KEY := OPENAI_API_KEY s |}.

Definition set_clients (l : list Client.t) (s : state) : state :=
  {| clients := l; assistants := assistants s; clientsFile := clientsFile s;
     assistantsFile := assistantsFile s; OPENAI_API_KEY := OPENAI_API_KEY s |}.

Definition write_clientsFile (l : list Client.t) (s : state) : state :=
  {| clients := clients s; assistants := assistants s; clientsFile := Holds l;
     assistantsFile := assistantsFile s; OPENAI_API_KEY := OPENAI_API_KEY s |}.

(** Lines 30-40: the client list read at startup. *)
Definition load_clients (f : file (list Client.t)) : list Client.t :=
  match f with
  | Holds l => l
  | Missing | Unreadable => []
  end.

Definition loadAssistants (s : state) : state :=
  match assistantsFile s with
  | Missing => s
  | Holds parsed => set_assistants parsed s
  | Unreadable => set_assistants ∅ s
  end.

(** The process right after startup: [clients] loaded, [assistants = {}]
    followed by the initial [loadAssistants()]. *)
Definition startup (cf : file (list Client.t)) (af : file (gmap jsstring value))
    (env : value) : state :=
  loadAssistants
    {| clients := load_clients cf; assistants := ∅; clientsFile := cf;
       assistantsFile := af; OPENAI_API_KEY := env |}.

(** A restart keeps the disk and the environment and nothing else. *)
Definition restart (s : state) : state :=
  startup (clientsFile s) (assistantsFile s) (OPENAI_API_KEY s).

Definition inherited (key : jsstring) : bool := bool_decide (key ∈ OBJECT_PROTOTYPE).

(** [object[key]] on an ordinary object with the own properties [own]:
    the own property, else the member of Object.prototype of that name. *)
Definition read (own : gmap jsstring value) (key : jsstring) : value :=
  match own !! key with
  | Some v => v
  | None => if inherited key then Builtin key else Undefined
  end.

(** [object[key] = text] for a string [text]. An own property is
    overwritten. Without one, the assignment reaches Object.prototype:
    its members are writable data properties, which the assignment
    shadows by a new own property, except [__proto__], an accessor whose
    setter returns without effect for a value that is not an object. *)
Definition assign (key text : jsstring) (own : gmap jsstring value)
    : gmap jsstring value :=
  match own !! key with
  | Some _ => <[key := Str text]> own
  | None => if jsstring_eqb key PROTO then own else <[key := Str text]> own
  end.

Definition saveAssistant (clientId : value) (optimizedPrompt : jsstring) (s : state) : state :=
  let s := loadAssistants s in
  let s := set_assistants (assign (to_string clientId) optimizedPrompt (assistants s)) s in
  write_assistantsFile (assistants s) s.

(** [assistants[clientId]] *)
Definition assistant_of (s : state) (clientId : value) : value :=
  read (assistants s) (to_string clientId).

(** The callback of [clients.find]:
    [(c) => c.id === clientId && c.secret && c.secret === clientSecret]. *)
Definition matches (clientId clientSecret : value) (c : Client.t) : bool :=
  strict_eq (Client.id c) clientId
  && truthy (Client.secret c)
  && strict_eq (Client.secret c) clientSecret.

Definition getClientRecord (clients : list Client.t) (clientId clientSecret : value)
    : option Client.t :=
  if negb (truthy clientId) || negb (truthy clientSecret) then None
  else List.find (matches clientId clientSecret) clients.

(** The callback of [allClients.findIndex] in /api/save-key:
    [c => c.id === clientId && c.secret === clientSecret]. *)
Definition same_pair (clientId clientSecret : value) (c : Client.t) : bool :=
  strict_eq (Client.id c) clientId && strict_eq (Client.secret c) clientSecret.

(** [Array.prototype.findIndex], [-1] when no element satisfies [p]. *)
Fixpoint findIndex {A} (p : A -> bool) (l : list A) : Z :=
  match l with
  | [] => (-1)%Z
  | x :: r => if p x then 0%Z else
      let i := findIndex p r in if (i <? 0)%Z then (-1)%Z else (i + 1)%Z
  end.

(** ** Requests, responses and the completion call *)

Module Request.
(** The properties the handlers read from [req.body]; an absent one is
    undefined. *)
Record t := mk {
  clientId : value;
  clientSecret : value;
  prompt : value;
  selectedText : value;
  mode : value;
  rawPrompt : value;
  documentText : value;
  apiKey : value
}.
End Request.

Record response := mkResponse { status : N; body : value }.

Definition error_body (message : value) : value := Obj [(u "error", message)].

Definition error (code : N) (message : string) : response :=
  mkResponse code (error_body (Str (u message))).

Module Call.
(** [new OpenAI({ apiKey }).chat.completions.create({ model, messages,
    temperature })]; a message is its role and its content. *)
Record t := mk {
  apiKey : value;
  model : jsstring;
  messages : list (jsstring * value);
  temperature : value
}.
End Call.

Inductive upstream :=
| Resolves (completion : value)
| Rejects (message : value).

Inductive run :=
| Respond (r : response) (s : state)
| Await (c : Call.t) (s : state) (k : upstream -> state -> response * state).

(** The calls a run makes, and how it ends when nothing else touches the
    state while it waits. *)
Definition calls (r : run) : list Call.t :=
  match r with
  | Respond _ _ => []
  | Await c _ _ => [c]
  end.

Definition finish (r : run) (up : upstream) : response * state :=
  match r with
  | Respond r s => (r, s)
  | Await _ s k => k up s
  end.

(** ** POST /api/ia *)

Definition PLACEHOLDER : jsstring := u "(nenhum texto selecionado)".

Definition PROMPT_HEAD : jsstring :=
  u "Você é um assistente jurídico brasileiro." ++ LF ++ u "Tarefa: ".

Definition PROMPT_MIDDLE : jsstring :=
  LF ++ u "Texto de referência (se houver):" ++ LF.

Definition PROMPT_TAIL : jsstring :=
  LF ++ u "Responda apenas com o texto final, limpo, sem marcadores, sem asteriscos, sem emojis e pronto para ser utilizado em um documento Word (.docx).".

(** Lines 100-101. *)
Definition fullPrompt (prompt selectedText : value) : jsstring :=
  trim (LF ++ PROMPT_HEAD ++ to_string prompt ++ PROMPT_MIDDLE
        ++ to_string (js_or selectedText (Str PLACEHOLDER)) ++ PROMPT_TAIL ++ LF).

Definition DEFAULT_SYSTEM_PROMPT : jsstring :=
  u "Você é um assistente jurídico brasileiro especializado em Direito Civil, Trabalhista e Previdenciário. Use linguagem técnica, clara e objetiva, conforme prática forense brasileira.".

Definition ANSWER_FALLBACK : jsstring := u "Não foi possível gerar resposta.".

(** Lines 140-146. *)
Definition answer (completion : value) : except value :=
  if truthy completion then
    choices ← get completion (u "choices");
    match choices with
    | Arr (choice :: _) =>
      if truthy choice then
        message ← get choice (u "message");
        if truthy message then
          content ← get message (u "content");
          match content with
          | Str text => Ok (Str (trim text))
          | _ => Ok (Str ANSWER_FALLBACK)
          end
        else Ok (Str ANSWER_FALLBACK)
      else Ok (Str ANSWER_FALLBACK)
    | _ => Ok (Str ANSWER_FALLBACK)
    end
  else Ok (Str ANSWER_FALLBACK).

Section Handlers.
Context `{!Engine}.

(** [catch (err) { res.status(500).json({ error: err.message || fallback }) }] *)
Definition caught (message : value) (fallback : string) : response :=
  mkResponse 500 (error_body (js_or message (Str (u fallback)))).

Definition api_ia (req : Request.t) (s : state) : run :=
  let clientId := Request.clientId req in
  let clientSecret := Request.clientSecret req in
  if negb (truthy clientId) || negb (truthy clientSecret) then
    Respond (error 400 "Missing clientId or clientSecret") s
  else
    match getClientRecord (clients s) clientId clientSecret with
    | None => Respond (error 401 "Invalid client credentials") s
    | Some clientRecord =>
      if negb (truthy (Request.prompt req)) then
        Respond (error 400 "Missing prompt") s
      else
        let apiKey := js_or (Client.openaiApiKey clientRecord) (OPENAI_API_KEY s) in
        if negb (truthy apiKey) then
          Respond (error 500 "No OpenAI API key configured for this client") s
        else
          let s := loadAssistants s in
          let customSystemPrompt :=
            js_or (assistant_of s clientId) (Str DEFAULT_SYSTEM_PROMPT) in
          Await
            {| Call.apiKey := apiKey;
               Call.model := u "gpt-4o-mini";
               Call.messages :=
                 [(u "system", customSystemPrompt);
                  (u "user", Str (fullPrompt (Request.prompt req) (Request.selectedText req)))];
               Call.temperature := Num (u "0.3") |}
            s
            (fun up s =>
               match up with
               | Rejects message => (caught message "Erro interno", s)
               | Resolves completion =>
                 match answer completion with
                 | Throw e => (caught (error_message e) "Erro interno", s)
                 | Ok text =>
                   (mkResponse 200
                      (Obj [(u "text", text);
                            (u "mode", js_or (Request.mode req) (Str (u "replace")))]),
                    s)
                 end
               end)
    end.

(** ** POST /api/configure *)

Definition OPTIMIZER_SYSTEM_PROMPT : jsstring :=
  u "Você é um especialista em Prompt Engineering para LLMs. Sua tarefa é transformar uma descrição curta de um papel profissional em um 'System Prompt' detalhado, robusto e otimizado para gerar documentos jurídicos de alta qualidade. O prompt otimizado deve instruir a IA a agir como esse profissional, usando terminologia correta e estilo formal. Responda APENAS com o prompt otimizado, sem explicações adicionais.".

Definition optimizationPrompt (rawPrompt : value) : jsstring :=
  u "Crie um System Prompt otimizado para esta descrição: "
    ++ QUOTE ++ to_string rawPrompt ++ QUOTE.

Definition OPTIMIZED_FALLBACK : jsstring := u "Você é um assistente jurídico.".

(** [v > 0] *)
Definition gt_zero (v : value) : bool :=
  match v with
  | Undefined | Null | Obj _ | Builtin _ => false
  | Bool b => b
  | Num r =>
    negb (jsstring_eqb r (u "0")) && negb (jsstring_eqb r (u "NaN"))
    && negb (jsstring_eqb (take 1 r) (u "-"))
  | Str s => string_gt_zero s
  | Arr _ => string_gt_zero (to_string v)
  end.

(** [choices.length > 0] *)
Definition length_gt_zero (choices : value) : bool :=
  match choices with
  | Arr l => bool_decide (l <> [])
  | Str s => bool_decide (s <> [])
  | Obj props => gt_zero (own_property props (u "length"))
  | Builtin name => negb (jsstring_eqb name PROTO) && (0 <? function_length name)
  | _ => false
  end.

(** [choices[0]] *)
Definition first (choices : value) : value :=
  match choices with
  | Arr (x :: _) => x
  | Str (c :: _) => Str [c]
  | Obj props => own_property props (u "0")
  | _ => Undefined
  end.

(** Lines 199-203 and 279-283: the same extraction, with its own
    fallback text in each handler. *)
Definition content_or (fallback : jsstring) (completion : value) : except jsstring :=
  if truthy completion then
    choices ← get completion (u "choices");
    if truthy choices && length_gt_zero choices then
      message ← get (first choices) (u "message");
      content ← get message (u "content");
      if truthy content then call_trim content else Ok fallback
    else Ok fallback
  else Ok fallback.

Definition api_configure (req : Request.t) (s : state) : run :=
  let clientId := Request.clientId req in
  let clientSecret := Request.clientSecret req in
  if negb (truthy clientId) || negb (truthy clientSecret) then
    Respond (error 400 "Missing clientId or clientSecret") s
  else
    match getClientRecord (clients s) clientId clientSecret with
    | None => Respond (error 401 "Invalid client credentials") s
    | Some clientRecord =>
      if negb (truthy (Request.rawPrompt req)) then
        Respond (error 400 "Missing rawPrompt") s
      else
        let apiKey := js_or (Client.openaiApiKey clientRecord) (OPENAI_API_KEY s) in
        if negb (truthy apiKey) then
          Respond (error 500 "No OpenAI API key configured") s
        else
          Await
            {| Call.apiKey := apiKey;
               Call.model := u "gpt-4o-mini";
               Call.messages :=
                 [(u "system", Str OPTIMIZER_SYSTEM_PROMPT);
                  (u "user", Str (optimizationPrompt (Request.rawPrompt req)))];
               Call.temperature := Num (u "0.7") |}
            s
            (fun up s =>
               match up with
               | Rejects message => (caught message "Internal Error", s)
               | Resolves completion =>
                 match content_or OPTIMIZED_FALLBACK completion with
                 | Throw e => (caught (error_message e) "Internal Error", s)
                 | Ok optimizedPrompt =>
                   let s := saveAssistant clientId optimizedPrompt s in
                   (mkResponse 200
                      (Obj [(u "success", Bool true);
                            (u "optimizedPrompt", Str optimizedPrompt)]),
                    s)
                 end
               end)
    end.

(** ** POST /api/analyze *)

Definition EXPERT_PROMPT : jsstring := u "
Você é uma Autoridade Suprema em Direito Brasileiro e Linguística, atuando como o mais experiente Consultor Jurídico e Revisor de Textos.
Você detém conhecimento enciclopédico de todas as áreas do Direito (Civil, Penal, Trabalhista, Tributário, Constitucional, etc.) e domínio absoluto da Norma Culta da Língua Portuguesa.

Sua missão é realizar uma ANÁLISE FORENSE E LINGUÍSTICA DO DOCUMENTO fornecido.

Diretrizes de Análise:
1.  **Rigidez Jurídica**: Verifique a solidez dos argumentos, a correta aplicação dos institutos jurídicos e a vigência das leis citadas. Aponte fragilidades, riscos de nulidade ou teses ultrapassadas.
2.  **Excelência Linguística**: Identifique erros gramaticais, de sintaxe, pontuação e regência. Avalie a clareza, a coesão e a elegância do texto. O estilo deve ser culto, formal e persuasivo, sem ser pedante.
3.  **Estratégia Processual**: Analise se o texto atinge seu objetivo (convencer o juiz, notificar a parte, etc.) com eficácia.

Formato da Resposta:
Forneça um RELATÓRIO TÉCNICO estruturado:
-   **Resumo da Análise**: Uma visão geral da qualidade do documento.
-   **Pontos Críticos (Jurídico)**: Erros graves ou sugestões de fundamentação.
-   **Correções Linguísticas**: Lista de erros gramaticais ou de estilo encontrados.
-   **Sugestões de Melhoria**: Recomendações para elevar o nível do documento.

Se o documento estiver perfeito, reconheça a excelência. Se estiver ruim, seja implacável mas construtivo.
".

Definition analysisPrompt (documentText : value) : jsstring :=
  u "Aqui está o texto do documento para análise:" ++ LF ++ LF ++ to_string documentText.

Definition ANALYSIS_FALLBACK : jsstring := u "Não foi possível gerar a análise.".

Definition api_analyze (req : Request.t) (s : state) : run :=
  let clientId := Request.clientId req in
  let clientSecret := Request.clientSecret req in
  if negb (truthy clientId) || negb (truthy clientSecret) then
    Respond (error 400 "Missing clientId or clientSecret") s
  else
    match getClientRecord (clients s) clientId clientSecret with
    | None => Respond (error 401 "Invalid client credentials") s
    | Some clientRecord =>
      if negb (truthy (Request.documentText req)) then
        Respond (error 400 "Missing documentText") s
      else
        let apiKey := js_or (Client.openaiApiKey clientRecord) (OPENAI_API_KEY s) in
        if negb (truthy apiKey) then
          Respond (error 500 "No OpenAI API key configured") s
        else
          Await
            {| Call.apiKey := apiKey;
               Call.model := u "gpt-4o-mini";
               Call.messages :=
                 [(u "system", Str EXPERT_PROMPT);
                  (u "user", Str (analysisPrompt (Request.documentText req)))];
               Call.temperature := Num (u "0.4") |}
            s
            (fun up s =>
               match up with
               | Rejects message => (caught message "Internal Error", s)
               | Resolves completion =>
                 match content_or ANALYSIS_FALLBACK completion with
                 | Throw e => (caught (error_message e) "Internal Error", s)
                 | Ok analysis =>
                   (mkResponse 200 (Obj [(u "analysis", Str analysis)]), s)
                 end
               end)
    end.

(** ** POST /api/save-key *)

(** Lines 315-318: the client file read afresh. *)
Definition read_allClients (s : state) : except (list Client.t) :=
  match clientsFile s with
  | Missing => Ok []
  | Holds parsed => Ok parsed
  | Unreadable => Throw ReadError
  end.

Definition api_save_key (req : Request.t) (s : state) : response * state :=
  let clientId := Request.clientId req in
  let clientSecret := Request.clientSecret req in
  let apiKey := Request.apiKey req in
  if negb (truthy clientId) || negb (truthy clientSecret) then
    (error 400 "Missing clientId or clientSecret", s)
  else if negb (truthy apiKey) then
    (error 400 "Missing apiKey", s)
  else
    match getClientRecord (clients s) clientId clientSecret with
    | None => (error 401 "Invalid client credentials", s)
    | Some clientRecord =>
      match read_allClients s with
      | Throw e => (mkResponse 500 (error_body (error_message e)), s)
      | Ok allClients =>
        let clientIndex :=
          findIndex (same_pair clientId clientSecret) allClients in
        if (0 <=? clientIndex)%Z then
          let allClients :=
            alter (Client.set_openaiApiKey apiKey) (Z.to_nat clientIndex) allClients in
          let s := set_clients allClients s in
          let s := write_clientsFile allClients s in
          (mkResponse 200
             (Obj [(u "success", Bool true);
                   (u "message", Str (u "API Key salva com sucesso."))]),
           s)
        else (error 500 "Client found in cache but not in file.", s)
      end
    end.

End Handlers.

(** ** Sample data

    The two records of the README's clients.json, a record without a key
    of its own, and a running process that has loaded them. *)

Definition cliente123 : Client.t :=
  {| Client.id := Str (u "cliente123");
     Client.secret := Str (u "minha-senha-secreta");
     Client.openaiApiKey := Str (u "sk-live-abcdefg") |}.

Definition cliente456 : Client.t :=
  {| Client.id := Str (u "cliente456");
     Client.secret := Str (u "outra-senha");
     Client.openaiApiKey := Str (u "sk-live-hijklmn") |}.

Definition cliente789 : Client.t :=
  {| Client.id := Str (u "cliente789");
     Client.secret := Str (u "terceira-senha");
     Client.openaiApiKey := Undefined |}.

Definition sample_clients : list Client.t := [cliente123; cliente456; cliente789].

Definition sample_state : state :=
  startup (Holds sample_clients) Missing Undefined.

(** A clients.json whose tenants are named after members of
    Object.prototype, and a running process that has loaded it. *)
Definition tenant_toString : Client.t :=
  {| Client.id := Str (u "toString");
     Client.secret := Str (u "segredo-um");
     Client.openaiApiKey := Str (u "sk-live-opqrstu") |}.

Definition tenant_proto : Client.t :=
  {| Client.id := Str PROTO;
     Client.secret := Str (u "segredo-dois");
     Client.openaiApiKey := Str (u "sk-live-vwxyzab") |}.

Definition prototype_named_state : state :=
  startup (Holds [tenant_toString; tenant_proto]) Missing Undefined.

Definition sample_engine : Engine :=
  {| string_gt_zero := fun _ => false;
     error_message := fun _ => Str (u "Unexpected token") |}.

Definition empty_request : Request.t :=
  {| Request.clientId := Undefined; Request.clientSecret := Undefined;
     Request.prompt := Undefined; Request.selectedText := Undefined;
     Request.mode := Undefined; Request.rawPrompt := Undefined;
     Request.documentText := Undefined; Request.apiKey := Undefined |}.

Definition with_credentials (clientId clientSecret : string) (req : Request.t) : Request.t :=
  {| Request.clientId := Str (u clientId); Request.clientSecret := Str (u clientSecret);
     Request.prompt := Request.prompt req; Request.selectedText := Request.selectedText req;
     Request.mode := Request.mode req; Request.rawPrompt := Request.rawPrompt req;
     Request.documentText := Request.documentText req; Request.apiKey := Request.apiKey req |}.

(** ** Specification vocabulary *)

(** The key-resolution policy, as a property of a run: the call is made
    with the stored key when that is truthy, else with the fallback key
    when that is truthy; with neither, the run ends at once with
    [refusal] and the state untouched. *)
Definition key_policy (stored fallback : value) (refusal : response) (s : state)
    (r : run) : Prop :=
  (truthy stored = true ->
   exists c s' k, r = Await c s' k /\ Call.apiKey c = stored)
  /\ (truthy stored = false -> truthy fallback = true ->
      exists c s' k, r = Await c s' k /\ Call.apiKey c = fallback)
  /\ (truthy stored = false -> truthy fallback = false ->
      r = Respond refusal s /\ calls r = []).

Definition with_prompt (prompt : string) (req : Request.t) : Request.t :=
  {| Request.clientId := Request.clientId req;
     Request.clientSecret := Request.clientSecret req;
     Request.prompt := Str (u prompt); Request.selectedText := Request.selectedText req;
     Request.mode := Request.mode req; Request.rawPrompt := Request.rawPrompt req;
     Request.documentText := Request.documentText req; Request.apiKey := Request.apiKey req |}.

(** assistants.json removed by hand while the server runs. *)
Definition remove_assistantsFile (s : state) : state :=
  {| clients := clients s; assistants := assistants s; clientsFile := clientsFile s;
     assistantsFile := Missing; OPENAI_API_KEY := OPENAI_API_KEY s |}.

Definition with_documentText (documentText : value) (req : Request.t) : Request.t :=
  {| Request.clientId := Request.clientId req;
     Request.clientSecret := Request.clientSecret req;
     Request.prompt := Request.prompt req; Request.selectedText := Request.selectedText req;
     Request.mode := Request.mode req; Request.rawPrompt := Request.rawPrompt req;
     Request.documentText := documentText; Request.apiKey := Request.apiKey req |}.

Definition with_apiKey (apiKey : value) (req : Request.t) : Request.t :=
  {| Request.clientId := Request.clientId req;
     Request.clientSecret := Request.clientSecret req;
     Request.prompt := Request.prompt req; Request.selectedText := Request.selectedText req;
     Request.mode := Request.mode req; Request.rawPrompt := Request.rawPrompt req;
     Request.documentText := Request.documentText req; Request.apiKey := apiKey |}.

(** A completion is well-shaped when its [choices] array starts with an
    object whose [message] is an object whose [content] is a string. *)
Inductive first_choice_content : value -> jsstring -> Prop :=
| FirstChoiceContent (props cprops mprops : list (jsstring * value))
    (rest : list value) (text : jsstring) :
    own_property props (u "choices") = Arr (Obj cprops :: rest) ->
    own_property cprops (u "message") = Obj mprops ->
    own_property mprops (u "content") = Str text ->
    first_choice_content (Obj props) text.

Definition completion_with (content : value) : value :=
  Obj [(u "choices", Arr [Obj [(u "message", Obj [(u "content", content)])]])].

(** A reply made of one space. *)
Definition blank_reply : value := completion_with (Str (u " ")).

Definition with_rawPrompt (rawPrompt : string) (req : Request.t) : Request.t :=
  {| Request.clientId := Request.clientId req;
     Request.clientSecret := Request.clientSecret req;
     Request.prompt := Request.prompt req; Request.selectedText := Request.selectedText req;
     Request.mode := Request.mode req; Request.rawPrompt := Str (u rawPrompt);
     Request.documentText := Request.documentText req; Request.apiKey := Request.apiKey req |}.

Definition with_selectedText (selectedText : string) (req : Request.t) : Request.t :=
  {| Request.clientId := Request.clientId req;
     Request.clientSecret := Request.clientSecret req;
     Request.prompt := Request.prompt req; Request.selectedText := Str (u selectedText);
     Request.mode := Request.mode req; Request.rawPrompt := Request.rawPrompt req;
     Request.documentText := Request.documentText req; Request.apiKey := Request.apiKey req |}.

(** A string that starts with a character [trim] keeps. *)
Definition clean_start (s : jsstring) : bool :=
  match s with
  | [] => false
  | c :: _ => negb (is_white_space c)
  end.

(** Whether a run is suspended on the completion call. *)
Definition awaits (r : run) : bool :=
  match r with
  | Await _ _ _ => true
  | Respond _ _ => false
  end.

(** clients.json removed by hand while the server runs. *)
Definition remove_clientsFile (s : state) : state :=
  {| clients := clients s; assistants := assistants s; clientsFile := Missing;
     assistantsFile := assistantsFile s; OPENAI_API_KEY := OPENAI_API_KEY s |}.

(** ** The task pane (frontend/taskpane.js)

    The task pane is the caller of the four POST endpoints. Its DOM and
    Office calls are not modelled; each function is embedded as the
    request body it sends, if it sends one, from the values it reads
    (query string, input fields, Word selection or document text). A
    body reaches the server through [JSON.stringify] and [express.json],
    which turn its string properties into string values of [req.body]. *)

Module Taskpane.

(** What the embedding leaves to the browser: [decodeURIComponent],
    which fails with a URIError on malformed escapes and copies every
    string that contains no percent sign. *)
Class Browser := {
  decodeURIComponent : jsstring -> option jsstring;
  decodeURIComponent_plain :
    forall s : jsstring, 37 ∉ s -> decodeURIComponent s = Some s
}.

(** [s.split(separator)] for a separator of one code unit. *)
Fixpoint split (separator : N) (s : jsstring) : list jsstring :=
  match s with
  | [] => [[]]
  | c :: r =>
    if c =? separator then [] :: split separator r
    else
      match split separator r with
      | [] => [[c]]
      | piece :: pieces => (c :: piece) :: pieces
      end
  end.

Section Browser.
Context `{!Browser}.

(** Lines 10-21; [search] is [window.location.search]. The result is
    [None] when a [decodeURIComponent] throws. *)
Definition getQueryParams (search : jsstring) : option (gmap jsstring jsstring) :=
  let query := drop 1 search in
  let vars := split 38 query in
  foldl
    (fun (params : option (gmap jsstring jsstring)) (v : jsstring) =>
       params ← params;
       match split 61 v with
       | [name; val] =>
         key ← decodeURIComponent name;
         decoded ← decodeURIComponent val;
         Some (<[key := decoded]> params)
       | _ => Some params
       end)
    (Some ∅) vars.

(** Lines 24-35: the credentials the button handlers are wired with.
    [Some None] is the pane that shows the missing-parameters error and
    wires nothing. *)
Definition onReady (search : jsstring) : option (option (jsstring * jsstring)) :=
  params ← getQueryParams search;
  match params !! u "cid", params !! u "token" with
  | Some clientId, Some clientSecret =>
    if negb (truthy (Str clientId)) || negb (truthy (Str clientSecret)) then Some None
    else Some (Some (clientId, clientSecret))
  | _, _ => Some None
  end.

End Browser.

(** Lines 76-125: the body [runIA] posts to /api/ia. [promptValue] and
    [mode] are the values of the two inputs; [selection] is the text
    [getSelectedTextFromWord] resolved with, [None] when it failed. *)
Definition runIA (clientId clientSecret promptValue mode : jsstring)
    (selection : option jsstring) : option Request.t :=
  let prompt := trim promptValue in
  if negb (truthy (Str prompt)) then None
  else
    match selection with
    | None => None
    | Some selectedText =>
      Some {| Request.clientId := Str clientId; Request.clientSecret := Str clientSecret;
              Request.prompt := Str prompt; Request.selectedText := Str selectedText;
              Request.mode := Str mode; Request.rawPrompt := Undefined;
              Request.documentText := Undefined; Request.apiKey := Undefined |}
    end.

(** Lines 172-196. *)
Definition configureAssistant (clientId clientSecret roleDescription : jsstring)
    : option Request.t :=
  let rawPrompt := trim roleDescription in
  if negb (truthy (Str rawPrompt)) then None
  else
    Some {| Request.clientId := Str clientId; Request.clientSecret := Str clientSecret;
            Request.prompt := Undefined; Request.selectedText := Undefined;
            Request.mode := Undefined; Request.rawPrompt := Str rawPrompt;
            Request.documentText := Undefined; Request.apiKey := Undefined |}.

(** Lines 216-239. *)
Definition saveApiKeyOnly (clientId clientSecret apiKeyInput : jsstring)
    : option Request.t :=
  let apiKey := trim apiKeyInput in
  if negb (truthy (Str apiKey)) then None
  else
    Some {| Request.clientId := Str clientId; Request.clientSecret := Str clientSecret;
            Request.prompt := Undefined; Request.selectedText := Undefined;
            Request.mode := Undefined; Request.rawPrompt := Undefined;
            Request.documentText := Undefined; Request.apiKey := Str apiKey |}.

(** Lines 260-300; [bodyText] is the document text Word returned,
    [None] when reading it failed. *)
Definition analyzeDocument (clientId clientSecret : jsstring) (bodyText : option jsstring)
    : option Request.t :=
  match bodyText with
  | None => None
  | Some documentText =>
    if negb (truthy (Str documentText)) || negb (truthy (Str (trim documentText)))
    then None
    else
      Some {| Request.clientId := Str clientId; Request.clientSecret := Str clientSecret;
              Request.prompt := Undefined; Request.selectedText := Undefined;
              Request.mode := Undefined; Request.rawPrompt := Undefined;
              Request.documentText := Str documentText; Request.apiKey := Undefined |}
  end.

(** Lines 126-131: what [runIA] appends to the chat for a response;
    [None] stands for the "Erro HTTP" branch of a response that is not
    ok. *)
Definition aiText (resp : response) : option (except jsstring) :=
  if (200 <=? status resp) && (status resp <=? 299) then
    Some (text ← get (body resp) (u "text"); call_trim (js_or text (Str [])))
  else None.

(** A string with no percent sign, ampersand or equals sign: one that
    needs no escaping inside a query string. *)
Definition plain (s : jsstring) : bool :=
  forallb (fun c => negb (c =? 37) && negb (c =? 38) && negb (c =? 61)) s.

(** A browser that rejects every escape sequence: the least one the
    interface allows. *)
Definition strict_browser : Browser :=
  {| decodeURIComponent := fun s => if bool_decide (37 ∈ s) then None else Some s;
     decodeURIComponent_plain := fun s Hs =>
       eq_ind_r (x := false)
         (fun b : bool => (if b then None else Some s) = Some s)
         (eq_refl (Some s)) (bool_decide_eq_false_2 (37 ∈ s) Hs) |}.

End Taskpane.

(** ** Values: basic facts *)

Example u_ascii : u "replace" = [114; 101; 112; 108; 97; 99; 101].
Proof. reflexivity. Qed.

Example u_latin : u "Não" = [78; 227; 111].
Proof. reflexivity. Qed.

Example trim_example : trim (u "  a b
 ") = u "a b".
Proof. reflexivity. Qed.

(** String literals are kept folded in proofs; concrete strings are
    compared by evaluation. *)
#[global] Opaque u.

Lemma jsstring_eqb_true (a b : jsstring) : jsstring_eqb a b = true <-> a = b.
Proof. unfold jsstring_eqb. apply bool_decide_eq_true. Qed.

Lemma jsstring_eqb_refl (a : jsstring) : jsstring_eqb a a = true.
Proof. by apply jsstring_eqb_true. Qed.

Lemma truthy_Str (s : jsstring) : truthy (Str s) = true <-> s <> [].
Proof.
  simpl. rewrite negb_true_iff. unfold jsstring_eqb.
  rewrite bool_decide_eq_false. tauto.
Qed.

Lemma strict_eq_eq (a b : value) : strict_eq a b = true -> a = b.
Proof.
  destruct a, b; simpl; try discriminate; try reflexivity.
  - intros H. apply eqb_prop in H. by subst.
  - intros H. apply andb_true_iff in H as [H _].
    apply jsstring_eqb_true in H. by subst.
  - intros H. apply jsstring_eqb_true in H. by subst.
Qed.

Lemma strict_eq_Str (a b : jsstring) : strict_eq (Str a) (Str b) = true <-> a = b.
Proof. simpl. apply jsstring_eqb_true. Qed.

(** A value that is strictly equal to something is strictly equal to
    itself: it is a primitive other than NaN. *)
Lemma strict_eq_self (a b : value) : strict_eq a b = true -> strict_eq b b = true.
Proof.
  intros H. pose proof (strict_eq_eq _ _ H) as ->.
  exact H.
Qed.

(** ** The credential lookup *)

Lemma getClientRecord_find (cs : list Client.t) (clientId clientSecret : value) :
  truthy clientId = true -> truthy clientSecret = true ->
  getClientRecord cs clientId clientSecret = List.find (matches clientId clientSecret) cs.
Proof. intros H1 H2. unfold getClientRecord. by rewrite H1, H2. Qed.

Lemma getClientRecord_empty_credentials (cs : list Client.t) (clientId clientSecret : value) :
  truthy clientId = false \/ truthy clientSecret = false ->
  getClientRecord cs clientId clientSecret = None.
Proof.
  intros H. unfold getClientRecord.
  destruct H as [-> | ->]; [reflexivity | by rewrite orb_true_r].
Qed.

Lemma getClientRecord_Some (cs : list Client.t) (clientId clientSecret : value) (r : Client.t) :
  getClientRecord cs clientId clientSecret = Some r ->
  truthy clientId = true /\ truthy clientSecret = true /\ r ∈ cs
  /\ Client.id r = clientId /\ Client.secret r = clientSecret.
Proof.
  unfold getClientRecord.
  destruct (truthy clientId) eqn:H1; [| discriminate].
  destruct (truthy clientSecret) eqn:H2; [| discriminate].
  simpl. intros H. apply find_some in H as [Hin Hm].
  apply andb_true_iff in Hm as [Hm Hs]. apply andb_true_iff in Hm as [Hi _].
  repeat split; [by apply list_elem_of_In | by apply strict_eq_eq..].
Qed.

Lemma matches_Str (i sec : jsstring) (c : Client.t) :
  sec <> [] ->
  matches (Str i) (Str sec) c = true
  <-> Client.id c = Str i /\ Client.secret c = Str sec.
Proof.
  intros Hsec. unfold matches. rewrite !andb_true_iff. split.
  - intros [[Hi _] Hs]. split; by apply strict_eq_eq.
  - intros [-> ->]. rewrite !strict_eq_Str. rewrite truthy_Str. done.
Qed.

Lemma find_unique {A} (p : A -> bool) (l : list A) (x : A) :
  x ∈ l -> p x = true -> (forall y, y ∈ l -> p y = true -> y = x) ->
  List.find p l = Some x.
Proof.
  intros Hin Hp Huniq.
  destruct (List.find p l) as [y |] eqn:Hfind.
  - apply find_some in Hfind as [Hy Hpy].
    f_equal. apply Huniq; [by apply list_elem_of_In | done].
  - apply list_elem_of_In in Hin.
    pose proof (find_none _ _ Hfind _ Hin) as Hn. congruence.
Qed.

Lemma find_nobody {A} (p : A -> bool) (l : list A) :
  (forall y, y ∈ l -> p y = false) -> List.find p l = None.
Proof.
  intros Hall. destruct (List.find p l) as [y |] eqn:Hfind; [| done].
  apply find_some in Hfind as [Hy Hpy].
  apply list_elem_of_In in Hy. rewrite (Hall _ Hy) in Hpy. discriminate.
Qed.

(** C1. With both credentials non-empty, [getClientRecord] returns the
    one record of the list whose id is [clientId] and whose secret is
    the (non-empty) [clientSecret]. When a credential is empty, or no
    record carries that id together with that secret (unknown id, empty
    or different stored secret), it returns undefined, and each handler
    that got undefined from the lookup answers 401. *)
Theorem getClientRecord_spec (cs : list Client.t) (i sec : jsstring) :
  (i <> [] -> sec <> [] ->
   forall r : Client.t,
     r ∈ cs -> Client.id r = Str i -> Client.secret r = Str sec ->
     (forall r' : Client.t,
        r' ∈ cs -> Client.id r' = Str i -> Client.secret r' = Str sec -> r' = r) ->
     getClientRecord cs (Str i) (Str sec) = Some r)
  /\ (i = [] \/ sec = []
      \/ (forall r : Client.t,
            r ∈ cs -> ~ (Client.id r = Str i /\ Client.secret r = Str sec)) ->
      getClientRecord cs (Str i) (Str sec) = None)
  /\ (forall (E : Engine) (req : Request.t) (s : state),
        clients s = cs ->
        Request.clientId req = Str i -> Request.clientSecret req = Str sec ->
        i <> [] -> sec <> [] ->
        getClientRecord cs (Str i) (Str sec) = None ->
        let unauthorized := error 401 "Invalid client credentials" in
        api_ia req s = Respond unauthorized s
        /\ api_configure req s = Respond unauthorized s
        /\ api_analyze req s = Respond unauthorized s
        /\ (truthy (Request.apiKey req) = true ->
            api_save_key req s = (unauthorized, s))).
Proof.
  split; [| split].
  - intros Hi Hsec r Hin Hid Hs Huniq.
    rewrite getClientRecord_find by by apply truthy_Str.
    apply find_unique; [done | by apply matches_Str |].
    intros r' Hin' Hm. apply matches_Str in Hm as [? ?]; auto.
  - intros [-> | [-> | Hnone]].
    + by apply getClientRecord_empty_credentials; left.
    + by apply getClientRecord_empty_credentials; right.
    + destruct (decide (i = [])) as [-> | Hi];
        [by apply getClientRecord_empty_credentials; left |].
      destruct (decide (sec = [])) as [-> | Hsec];
        [by apply getClientRecord_empty_credentials; right |].
      rewrite getClientRecord_find by by apply truthy_Str.
      apply find_nobody. intros r Hin.
      destruct (matches (Str i) (Str sec) r) eqn:Hm; [| done].
      apply matches_Str in Hm; [| done]. by destruct (Hnone r Hin).
  - intros E req s Hcs Hci Hcs' Hi Hsec Hnone. simpl.
    apply truthy_Str in Hi. apply truthy_Str in Hsec.
    unfold api_ia, api_configure, api_analyze, api_save_key.
    rewrite Hci, Hcs', Hcs, Hi, Hsec, Hnone. simpl.
    repeat split. by intros ->.
Qed.

Lemma getClientRecord_spec_witness :
  getClientRecord sample_clients (Str (u "cliente456")) (Str (u "outra-senha"))
  = Some cliente456
  /\ getClientRecord sample_clients (Str (u "cliente456")) (Str (u "minha-senha-secreta"))
     = None
  /\ api_analyze (H := sample_engine)
       (with_credentials "cliente456" "minha-senha-secreta" empty_request) sample_state
     = Respond (error 401 "Invalid client credentials") sample_state.
Proof.
  split; [| split].
  - apply (proj1 (getClientRecord_spec sample_clients _ _)).
    + vm_compute; discriminate.
    + vm_compute; discriminate.
    + unfold sample_clients. set_solver.
    + reflexivity.
    + reflexivity.
    + intros r' Hin Hid Hsec. unfold sample_clients in Hin.
      apply elem_of_cons in Hin as [-> | Hin]; [vm_compute in Hid; discriminate |].
      apply elem_of_cons in Hin as [-> | Hin]; [reflexivity |].
      apply elem_of_cons in Hin as [-> | Hin]; [vm_compute in Hid; discriminate |].
      by apply elem_of_nil in Hin.
  - apply (proj1 (proj2 (getClientRecord_spec sample_clients _ _))).
    right; right. intros r Hin [Hid Hsec]. unfold sample_clients in Hin.
    apply elem_of_cons in Hin as [-> | Hin]; [vm_compute in Hid; discriminate |].
    apply elem_of_cons in Hin as [-> | Hin]; [vm_compute in Hsec; discriminate |].
    apply elem_of_cons in Hin as [-> | Hin]; [vm_compute in Hid; discriminate |].
    by apply elem_of_nil in Hin.
  - apply (proj2 (proj2 (getClientRecord_spec sample_clients
             (u "cliente456") (u "minha-senha-secreta"))) sample_engine).
    + reflexivity.
    + reflexivity.
    + reflexivity.
    + vm_compute; discriminate.
    + vm_compute; discriminate.
    + vm_compute; reflexivity.
Defined.

(** ** API-key resolution *)

(** An authenticated request to /api/ia that carries no prompt is
    answered 400 although neither a stored nor a fallback key exists:
    the prompt is checked before any key is resolved. *)
Lemma missing_prompt_precedes_key_resolution :
  let req := with_credentials "cliente789" "terceira-senha" empty_request in
  getClientRecord (clients sample_state) (Request.clientId req) (Request.clientSecret req)
  = Some cliente789
  /\ truthy (Client.openaiApiKey cliente789) = false
  /\ truthy (OPENAI_API_KEY sample_state) = false
  /\ api_ia (H := sample_engine) req sample_state
     = Respond (error 400 "Missing prompt") sample_state.
Proof. vm_compute. repeat split. Qed.

(** C2 (amended). For every authenticated request to /api/ia,
    /api/configure or /api/analyze that carries its required field
    (prompt, rawPrompt, documentText), the completion call is made with
    the record's stored key when that is present and non-empty, otherwise
    with OPENAI_API_KEY from the environment when that is non-empty; when
    neither is, the handler answers 500 with its configuration error and
    makes no call. *)
Theorem api_key_resolution `{!Engine} (req : Request.t) (s : state) (r : Client.t) :
  getClientRecord (clients s) (Request.clientId req) (Request.clientSecret req) = Some r ->
  let stored := Client.openaiApiKey r in
  let fallback := OPENAI_API_KEY s in
  (truthy (Request.prompt req) = true ->
   key_policy stored fallback
     (error 500 "No OpenAI API key configured for this client") s (api_ia req s))
  /\ (truthy (Request.rawPrompt req) = true ->
      key_policy stored fallback
        (error 500 "No OpenAI API key configured") s (api_configure req s))
  /\ (truthy (Request.documentText req) = true ->
      key_policy stored fallback
        (error 500 "No OpenAI API key configured") s (api_analyze req s)).
Proof.
  intros Hauth stored fallback.
  destruct (getClientRecord_Some _ _ _ _ Hauth) as (Hid & Hsec & _).
  unfold api_ia, api_configure, api_analyze, key_policy.
  rewrite Hauth, Hid, Hsec. simpl.
  fold stored fallback. unfold js_or.
  split; [| split]; intros Hfield; rewrite Hfield; simpl.
  all: split; [| split].
  all: try (intros Hs; rewrite Hs; simpl; rewrite Hs; simpl; by eauto).
  all: try (intros Hs Hf; rewrite Hs, Hf; simpl; by eauto).
  all: intros Hs Hf; rewrite Hs, Hf; simpl; rewrite Hf; simpl; by eauto.
Qed.

Lemma api_key_resolution_witness :
  let req := with_prompt "Resuma isto"
               (with_credentials "cliente789" "terceira-senha" empty_request) in
  key_policy Undefined Undefined
    (error 500 "No OpenAI API key configured for this client") sample_state
    (api_ia (H := sample_engine) req sample_state).
Proof.
  intros req.
  apply (proj1 (api_key_resolution (H := sample_engine) req sample_state cliente789
                  ltac:(vm_compute; reflexivity))).
  vm_compute; reflexivity.
Defined.

(** ** Loading the override store *)

(** An override saved earlier survives a later [loadAssistants()] that
    finds no file: the mapping in memory is not emptied. *)
Lemma loadAssistants_missing_file_keeps_memory :
  let s := remove_assistantsFile
             (saveAssistant (Str (u "cliente123")) (u "Prompt") sample_state) in
  assistantsFile s = Missing
  /\ assistants (loadAssistants s) !! u "cliente123" = Some (Str (u "Prompt"))
  /\ assistants (loadAssistants s) <> ∅.
Proof.
  intros s.
  assert (assistants (loadAssistants s) !! u "cliente123" = Some (Str (u "Prompt")))
    as Hlook by (vm_compute; reflexivity).
  split; [reflexivity | split; [exact Hlook |]].
  intros Hempty. rewrite Hempty in Hlook. by rewrite lookup_empty in Hlook.
Qed.

(** C3 (amended). [loadAssistants()] leaves the mapping in memory as it
    was when assistants.json does not exist (so it is empty after the
    initial load of a process started without the file), makes it empty
    when the file exists but cannot be read or parsed, and makes it the
    parsed mapping otherwise. A non-empty mapping after the call is
    either the result of a successful parse or the mapping that was
    already in memory while the file is missing. Nothing but the mapping
    in memory changes. *)
Theorem loadAssistants_spec (s : state) :
  (assistantsFile s = Missing -> assistants (loadAssistants s) = assistants s)
  /\ (assistantsFile s = Unreadable -> assistants (loadAssistants s) = ∅)
  /\ (forall parsed : gmap jsstring value,
        assistantsFile s = Holds parsed -> assistants (loadAssistants s) = parsed)
  /\ (assistants (loadAssistants s) <> ∅ ->
      (exists parsed : gmap jsstring value,
          assistantsFile s = Holds parsed /\ parsed <> ∅)
      \/ (assistantsFile s = Missing /\ assistants s <> ∅))
  /\ (forall (cf : file (list Client.t)) (env : value),
        assistants (startup cf Missing env) = ∅)
  /\ clients (loadAssistants s) = clients s
  /\ clientsFile (loadAssistants s) = clientsFile s
  /\ assistantsFile (loadAssistants s) = assistantsFile s
  /\ OPENAI_API_KEY (loadAssistants s) = OPENAI_API_KEY s.
Proof.
  unfold loadAssistants.
  destruct (assistantsFile s) as [| | parsed] eqn:Hfile; simpl;
    repeat split; try done.
  - intros Hne. right. done.
  - intros ? [= <-]. done.
  - intros Hne. left. by exists parsed.
Qed.

Lemma loadAssistants_spec_witness :
  assistants (loadAssistants sample_state) = assistants sample_state.
Proof.
  apply (proj1 (loadAssistants_spec sample_state)). reflexivity.
Defined.

(** ** Rejections of /api/analyze and /api/save-key *)

(** An empty documentText sent with credentials that match no record is
    answered 401, not 400: credentials are checked first. *)
Lemma analyze_empty_document_unauthorized :
  let req := with_documentText (Str [])
               (with_credentials "cliente123" "senha-errada" empty_request) in
  Request.documentText req = Str []
  /\ api_analyze (H := sample_engine) req sample_state
     = Respond (error 401 "Invalid client credentials") sample_state.
Proof. vm_compute. split; reflexivity. Qed.

(** C9 (amended). An /api/analyze request whose documentText is the
    empty string never reaches the completion API and leaves the state
    as it is. It is answered 401 when both credentials are present and
    match no record, and 400 otherwise: for missing credentials, and
    with "Missing documentText" once the credentials are accepted. *)
Theorem analyze_empty_document `{!Engine} (req : Request.t) (s : state) :
  Request.documentText req = Str [] ->
  calls (api_analyze req s) = []
  /\ exists resp : response,
       api_analyze req s = Respond resp s
       /\ (status resp = 400 \/ status resp = 401)
       /\ (status resp = 401 <->
           truthy (Request.clientId req) = true
           /\ truthy (Request.clientSecret req) = true
           /\ getClientRecord (clients s) (Request.clientId req) (Request.clientSecret req)
              = None)
       /\ (forall r : Client.t,
             getClientRecord (clients s) (Request.clientId req) (Request.clientSecret req)
             = Some r ->
             resp = error 400 "Missing documentText").
Proof.
  intros Hdoc. unfold api_analyze. rewrite Hdoc.
  destruct (truthy (Request.clientId req)) eqn:Hid; simpl.
  - destruct (truthy (Request.clientSecret req)) eqn:Hsec; simpl.
    + destruct (getClientRecord _ _ _) as [r |] eqn:Hrec; simpl.
      * split; [reflexivity |]. eexists. split; [reflexivity |].
        split; [by left |]. split; [| by intros]. split.
        -- simpl. intros [=].
        -- intros (_ & _ & [=]).
      * split; [reflexivity |]. eexists. split; [reflexivity |].
        split; [by right |]. split; [| by intros ? [=]].
        split; [by intros _ | by intros _].
    + split; [reflexivity |]. eexists. split; [reflexivity |].
      split; [by left |]. split.
      * split; [simpl; intros [=] | intros (_ & [=] & _)].
      * intros r Hsome.
        rewrite getClientRecord_empty_credentials in Hsome by (by right).
        discriminate.
  - split; [reflexivity |]. eexists. split; [reflexivity |].
    split; [by left |]. split.
    + split; [simpl; intros [=] | intros ([=] & _)].
    + intros r Hsome.
      rewrite getClientRecord_empty_credentials in Hsome by (by left).
      discriminate.
Qed.

Lemma analyze_empty_document_witness :
  calls (api_analyze (H := sample_engine)
           (with_documentText (Str [])
              (with_credentials "cliente123" "minha-senha-secreta" empty_request))
           sample_state) = [].
Proof.
  apply (analyze_empty_document (H := sample_engine)). reflexivity.
Defined.

(** A save-key request with credentials that match no record and without
    an apiKey is answered 400: the apiKey is checked before the lookup. *)
Lemma save_key_missing_apiKey_precedes_lookup :
  let req := with_credentials "cliente123" "senha-errada" empty_request in
  getClientRecord (clients sample_state) (Request.clientId req) (Request.clientSecret req)
  = None
  /\ api_save_key (H := sample_engine) req sample_state
     = (error 400 "Missing apiKey", sample_state).
Proof. vm_compute. split; reflexivity. Qed.

(** C6 (amended). A save-key request whose credentials match no record
    writes nothing: clients.json and the client list in memory are as
    before. It is answered 401 when clientId, clientSecret and apiKey are
    all present and non-empty, and 400 when one of them is missing. *)
Theorem save_key_unknown_credentials `{!Engine} (req : Request.t) (s : state) :
  getClientRecord (clients s) (Request.clientId req) (Request.clientSecret req) = None ->
  exists resp : response,
    api_save_key req s = (resp, s)
    /\ (truthy (Request.clientId req) = true ->
        truthy (Request.clientSecret req) = true ->
        truthy (Request.apiKey req) = true ->
        resp = error 401 "Invalid client credentials")
    /\ (truthy (Request.clientId req) = false
        \/ truthy (Request.clientSecret req) = false ->
        resp = error 400 "Missing clientId or clientSecret")
    /\ (truthy (Request.clientId req) = true ->
        truthy (Request.clientSecret req) = true ->
        truthy (Request.apiKey req) = false ->
        resp = error 400 "Missing apiKey").
Proof.
  intros Hnone. unfold api_save_key. rewrite Hnone.
  destruct (truthy (Request.clientId req)) eqn:Hid,
           (truthy (Request.clientSecret req)) eqn:Hsec,
           (truthy (Request.apiKey req)) eqn:Hkey; simpl;
    eexists; (split; [reflexivity |]); (split; [| split]);
    first [ by intros [[=] | [=]]
          | intros; discriminate
          | intros; reflexivity ].
Qed.

Lemma save_key_unknown_credentials_witness :
  exists resp : response,
    api_save_key (H := sample_engine)
      (with_apiKey (Str (u "sk-nova"))
         (with_credentials "cliente123" "senha-errada" empty_request))
      sample_state
    = (resp, sample_state)
    /\ resp = error 401 "Invalid client credentials".
Proof.
  destruct (save_key_unknown_credentials (H := sample_engine)
              (with_apiKey (Str (u "sk-nova"))
                 (with_credentials "cliente123" "senha-errada" empty_request))
              sample_state ltac:(vm_compute; reflexivity))
    as (resp & Hrun & H401 & _).
  exists resp. split; [exact Hrun |].
  apply H401; vm_compute; reflexivity.
Defined.

(** ** Saving an API key *)

Lemma findIndex_lower {A} (p : A -> bool) (l : list A) : (-1 <= findIndex p l)%Z.
Proof.
  induction l as [| x l IH]; simpl; [lia |].
  destruct (p x); [lia |].
  destruct (Z.ltb_spec (findIndex p l) 0); lia.
Qed.

Lemma findIndex_elem {A} (p : A -> bool) (l : list A) (x : A) :
  x ∈ l -> p x = true -> (0 <= findIndex p l)%Z.
Proof.
  induction 1 as [x l | x y l Hin IH]; simpl; intros Hp.
  - rewrite Hp. lia.
  - destruct (p y); [lia |]. specialize (IH Hp).
    destruct (Z.ltb_spec (findIndex p l) 0); lia.
Qed.

Lemma findIndex_lookup {A} (p : A -> bool) (l : list A) :
  (0 <= findIndex p l)%Z ->
  exists x, l !! Z.to_nat (findIndex p l) = Some x /\ p x = true
            /\ List.find p l = Some x.
Proof.
  induction l as [| x l IH]; simpl; [lia |].
  destruct (p x) eqn:Hp.
  - intros _. exists x. done.
  - destruct (Z.ltb_spec (findIndex p l) 0) as [Hlt | Hge]; [lia |].
    intros _. destruct (IH Hge) as (y & Hy & Hpy & Hfind).
    exists y. rewrite Z2Nat.inj_add by lia.
    replace (Z.to_nat (findIndex p l) + Z.to_nat 1)%nat
      with (S (Z.to_nat (findIndex p l))) by lia.
    done.
Qed.



Lemma find_alter_first {A} (p : A -> bool) (f : A -> A) (l : list A) :
  (forall x, p (f x) = p x) -> (0 <= findIndex p l)%Z ->
  List.find p (alter f (Z.to_nat (findIndex p l)) l) = f <$> List.find p l.
Proof.
  intros Hpf. induction l as [| x l IH]; simpl; [lia |].
  destruct (p x) eqn:Hp; simpl.
  - intros _. by rewrite Hpf, Hp.
  - destruct (Z.ltb_spec (findIndex p l) 0) as [Hlt | Hge]; [lia |].
    intros _. rewrite Z2Nat.inj_add by lia.
    replace (Z.to_nat (findIndex p l) + Z.to_nat 1)%nat
      with (S (Z.to_nat (findIndex p l))) by lia.
    simpl. rewrite Hp. by apply IH.
Qed.

Lemma find_ext_bool {A} (p q : A -> bool) (l : list A) :
  (forall x, p x = q x) -> List.find p l = List.find q l.
Proof.
  intros Hpq. induction l as [| x l IH]; simpl; [done |].
  by rewrite Hpq, IH.
Qed.


(** Once the presented secret is non-empty, the lookup and the search of
    the file select the same records. *)
Lemma matches_same_pair (clientId clientSecret : value) (c : Client.t) :
  truthy clientSecret = true ->
  matches clientId clientSecret c = same_pair clientId clientSecret c.
Proof.
  intros Hsec. unfold matches, same_pair.
  destruct (strict_eq (Client.id c) clientId); simpl; [| done].
  destruct (strict_eq (Client.secret c) clientSecret) eqn:Heq;
    [| by rewrite andb_false_r].
  apply strict_eq_eq in Heq. by rewrite Heq, Hsec.
Qed.

Lemma same_pair_set_openaiApiKey (clientId clientSecret apiKey : value) (c : Client.t) :
  same_pair clientId clientSecret (Client.set_openaiApiKey apiKey c)
  = same_pair clientId clientSecret c.
Proof. reflexivity. Qed.

Lemma set_openaiApiKey_twice (apiKey : value) (c : Client.t) :
  Client.set_openaiApiKey apiKey (Client.set_openaiApiKey apiKey c)
  = Client.set_openaiApiKey apiKey c.
Proof. reflexivity. Qed.




(** ** The override object *)

Lemma assign_own (own : gmap jsstring value) (key text : jsstring) :
  key <> PROTO \/ is_Some (own !! key) ->
  assign key text own = <[key := Str text]> own.
Proof.
  intros Hok. unfold assign.
  destruct (own !! key) as [v |] eqn:Hlook; [reflexivity |].
  destruct Hok as [Hne | [v Hv]]; [| congruence].
  unfold jsstring_eqb. by rewrite bool_decide_eq_false_2.
Qed.

Lemma assign_proto (own : gmap jsstring value) (text : jsstring) :
  own !! PROTO = None -> assign PROTO text own = own.
Proof.
  intros Hnone. unfold assign. by rewrite Hnone, jsstring_eqb_refl.
Qed.

Lemma lookup_assign_ne (own : gmap jsstring value) (key k text : jsstring) :
  k <> key -> assign key text own !! k = own !! k.
Proof.
  intros Hne. unfold assign.
  destruct (own !! key); [| destruct (jsstring_eqb key PROTO)];
    try reflexivity; apply lookup_insert_ne; congruence.
Qed.

Lemma assign_twice (own : gmap jsstring value) (key t1 t2 : jsstring) :
  assign key t2 (assign key t1 own) = assign key t2 own.
Proof.
  destruct (own !! key) as [v |] eqn:Hlook.
  - rewrite (assign_own own key t1) by eauto.
    rewrite !assign_own by (right; rewrite ?lookup_insert_eq; eauto).
    apply insert_insert_eq.
  - destruct (decide (key = PROTO)) as [-> | Hne].
    + by rewrite (assign_proto own t1) by done.
    + rewrite !assign_own by by left. apply insert_insert_eq.
Qed.

Lemma assign_commute (own : gmap jsstring value) (k1 k2 t1 t2 : jsstring) :
  k1 <> k2 ->
  assign k1 t1 (assign k2 t2 own) = assign k2 t2 (assign k1 t1 own).
Proof.
  intros Hne.
  pose proof (lookup_assign_ne own k2 k1 t2 Hne) as H12.
  pose proof (lookup_assign_ne own k1 k2 t1 (not_eq_sym Hne)) as H21.
  unfold assign at 1 3. rewrite H12, H21. unfold assign.
  destruct (own !! k1), (own !! k2),
    (jsstring_eqb k1 PROTO), (jsstring_eqb k2 PROTO);
    try reflexivity; by apply insert_insert_ne.
Qed.

Lemma read_own (own : gmap jsstring value) (key : jsstring) (v : value) :
  own !! key = Some v -> read own key = v.
Proof. intros Hv. unfold read. by rewrite Hv. Qed.

Lemma read_absent (own : gmap jsstring value) (key : jsstring) :
  own !! key = None -> inherited key = false -> read own key = Undefined.
Proof. intros Hnone Hkey. unfold read. by rewrite Hnone, Hkey. Qed.

Lemma read_inherited (own : gmap jsstring value) (key : jsstring) :
  own !! key = None -> inherited key = true -> read own key = Builtin key.
Proof. intros Hnone Hkey. unfold read. by rewrite Hnone, Hkey. Qed.

Lemma state_eq (s t : state) :
  clients s = clients t -> assistants s = assistants t ->
  clientsFile s = clientsFile t -> assistantsFile s = assistantsFile t ->
  OPENAI_API_KEY s = OPENAI_API_KEY t -> s = t.
Proof. destruct s, t; simpl; intros; by subst. Qed.

Lemma saveAssistant_unfold (X : value) (t : jsstring) (s : state) :
  saveAssistant X t s
  = {| clients := clients s;
       assistants := assign (to_string X) t (assistants (loadAssistants s));
       clientsFile := clientsFile s;
       assistantsFile := Holds (assign (to_string X) t (assistants (loadAssistants s)));
       OPENAI_API_KEY := OPENAI_API_KEY s |}.
Proof.
  unfold saveAssistant, loadAssistants. by destruct (assistantsFile s).
Qed.

(** ** The override store across a restart *)

(** C8. The tenant id [__proto__]: [saveAssistant("__proto__", t)] on a
    store that has no own entry of that name saves nothing. The
    assignment of line 62 reaches the accessor every object inherits
    from Object.prototype, whose setter ignores a string, so the mapping
    in memory and the file written from it come out without the entry,
    and after a restart on that disk the entry read for the tenant is
    the inherited object, not [t]. This is the state /api/configure
    leaves for a tenant of that name, while it answers 200 with [t] as
    the optimized prompt. *)
Theorem saveAssistant_loses_proto_override :
  let X := Str PROTO in
  let t := u "Aja como civilista." in
  let saved := saveAssistant X t prototype_named_state in
  assistants (loadAssistants prototype_named_state) !! to_string X = None
  /\ assistants saved !! to_string X = None
  /\ assistantsFile saved = Holds ∅
  /\ assistants (restart saved) !! to_string X = None
  /\ assistant_of (restart saved) X = Builtin PROTO
  /\ assistant_of (restart saved) X <> Str t
  /\ assistant_of (loadAssistants saved) X <> Str t
  /\ match api_configure (H := sample_engine)
             (with_rawPrompt "Advogado Civilista"
                (with_credentials "__proto__" "segredo-dois" empty_request))
             prototype_named_state
     with
     | Await _ _ k =>
       let done := k (Resolves (completion_with (Str t))) prototype_named_state in
       fst done
       = mkResponse 200 (Obj [(u "success", Bool true); (u "optimizedPrompt", Str t)])
       /\ snd done = saved
     | Respond _ _ => False
     end.
Proof.
  intros X t saved.
  do 5 (split; [vm_compute; reflexivity |]).
  do 2 (split; [vm_compute; discriminate |]).
  vm_compute. split; reflexivity.
Qed.

(** X22. The round trip of an override, for every tenant id whose
    assignment at line 62 leaves an own property: any id whose string
    form is not [__proto__], and [__proto__] too when the mapping found
    by the reload already has an own entry of that name. After
    [saveAssistant(X, t)], assistants.json holds the reloaded mapping
    with [t] as the entry of [X], and a process restarted on that disk
    (and likewise a plain [loadAssistants()]) reads [t] for [X]. For
    [__proto__] without such an entry the file is the reloaded mapping
    unchanged and a restart reads the inherited object. *)
Theorem override_survives_restart (s : state) (X : value) (t : jsstring) :
  let key := to_string X in
  let found := assistants (loadAssistants s) in
  let saved := saveAssistant X t s in
  (key <> PROTO \/ is_Some (found !! key) ->
   assistantsFile saved = Holds (<[key := Str t]> found)
   /\ assistants (restart saved) !! key = Some (Str t)
   /\ assistant_of (restart saved) X = Str t
   /\ assistant_of (loadAssistants saved) X = Str t)
  /\ (key = PROTO -> found !! key = None ->
      assistantsFile saved = Holds found
      /\ assistants (restart saved) !! key = None
      /\ assistant_of (restart saved) X = Builtin PROTO
      /\ assistant_of (loadAssistants saved) X = Builtin PROTO).
Proof.
  intros key found saved. unfold saved.
  rewrite saveAssistant_unfold. fold key found.
  unfold assistant_of, restart, startup, loadAssistants. simpl. fold key.
  split.
  - intros Hok. rewrite assign_own by exact Hok.
    unfold read. rewrite !lookup_insert_eq. done.
  - intros Hkey Hnone. rewrite Hkey in *. rewrite assign_proto by exact Hnone.
    unfold read. rewrite Hnone. done.
Qed.

Lemma override_survives_restart_witness :
  assistant_of
    (restart (saveAssistant (Str (u "cliente123")) (u "Aja como civilista.") sample_state))
    (Str (u "cliente123"))
  = Str (u "Aja como civilista.").
Proof.
  apply (proj1 (override_survives_restart sample_state (Str (u "cliente123"))
                  (u "Aja como civilista."))).
  left. vm_compute. discriminate.
Defined.

(** ** The text extracted from a completion *)

Lemma first_choice_content_answer (completion : value) (text : jsstring) :
  first_choice_content completion text -> answer completion = Ok (Str (trim text)).
Proof.
  intros [props cprops mprops rest text' Hchoices Hmessage Hcontent].
  unfold answer. simpl. rewrite Hchoices. simpl.
  rewrite Hmessage. simpl. by rewrite Hcontent.
Qed.

Lemma answer_cases (completion : value) :
  (exists text : jsstring,
      first_choice_content completion text
      /\ answer completion = Ok (Str (trim text)))
  \/ ((forall text : jsstring, ~ first_choice_content completion text)
      /\ answer completion = Ok (Str ANSWER_FALLBACK)).
Proof.
  destruct completion as [| | b | r | t | l | props | name];
    try (right; split; [by inversion 1 | reflexivity]).
  - right. split; [by inversion 1 | by unfold answer; destruct b].
  - right. split; [by inversion 1 |].
    unfold answer. by destruct (truthy (Num r)).
  - right. split; [by inversion 1 |].
    unfold answer. by destruct (truthy (Str t)).
  - destruct (own_property props (u "choices")) as [| | | | | [| choice rest] | |] eqn:Hc;
      try (right; split;
           [by inversion 1; congruence | by unfold answer; simpl; rewrite Hc]).
    destruct choice as [| | b | r | t | l | cprops | name];
      try (right; split;
           [by inversion 1; congruence | by unfold answer; simpl; rewrite Hc]).
    + right. split; [by inversion 1; congruence |].
      unfold answer; simpl; rewrite Hc. by destruct b.
    + right. split; [by inversion 1; congruence |].
      unfold answer; simpl; rewrite Hc. by destruct (truthy (Num r)).
    + right. split; [by inversion 1; congruence |].
      unfold answer; simpl; rewrite Hc. by destruct (truthy (Str t)).
    + destruct (own_property cprops (u "message")) as [| | b | r | t | l | mprops | name] eqn:Hm;
        try (right; split;
             [by inversion 1; congruence
             | by unfold answer; simpl; rewrite Hc; simpl; rewrite Hm]).
      * right. split; [by inversion 1; congruence |].
        unfold answer; simpl; rewrite Hc; simpl; rewrite Hm. by destruct b.
      * right. split; [by inversion 1; congruence |].
        unfold answer; simpl; rewrite Hc; simpl; rewrite Hm.
        by destruct (truthy (Num r)).
      * right. split; [by inversion 1; congruence |].
        unfold answer; simpl; rewrite Hc; simpl; rewrite Hm.
        by destruct (truthy (Str t)).
      * destruct (own_property mprops (u "content")) as [| | | | text | | |] eqn:Hcontent;
          try (right; split;
               [by inversion 1; congruence
               | by unfold answer; simpl; rewrite Hc; simpl; rewrite Hm; simpl;
                    rewrite Hcontent]).
        left. exists text. split; [by econstructor |].
        apply first_choice_content_answer. by econstructor.
Qed.

Lemma answer_never_throws (completion : value) :
  exists text : jsstring, answer completion = Ok (Str text).
Proof.
  destruct (answer_cases completion) as [(text & _ & ->) | [_ ->]]; eauto.
Qed.



(** ** The composed prompt *)

Lemma trimStart_clean (s : jsstring) : clean_start s = true -> trimStart s = s.
Proof.
  destruct s as [| c r]; simpl; [done |].
  intros Hc. apply negb_true_iff in Hc. by rewrite Hc.
Qed.

Lemma clean_start_app (s t : jsstring) :
  clean_start s = true -> clean_start (s ++ t) = true.
Proof. by destruct s. Qed.

Lemma trim_between_newlines (s : jsstring) :
  clean_start s = true -> clean_start (rev s) = true ->
  trim (LF ++ s ++ LF) = s.
Proof.
  intros Hstart Hend. unfold trim, trimEnd, LF. simpl.
  rewrite (trimStart_clean (s ++ [10])) by by apply clean_start_app.
  rewrite rev_app_distr. simpl.
  rewrite trimStart_clean by done. apply rev_involutive.
Qed.

Lemma fullPrompt_eq (prompt selectedText : value) :
  fullPrompt prompt selectedText
  = PROMPT_HEAD ++ to_string prompt ++ PROMPT_MIDDLE
    ++ to_string (js_or selectedText (Str PLACEHOLDER)) ++ PROMPT_TAIL.
Proof.
  unfold fullPrompt.
  set (task := to_string prompt).
  set (reference := to_string (js_or selectedText (Str PLACEHOLDER))).
  replace (LF ++ PROMPT_HEAD ++ task ++ PROMPT_MIDDLE ++ reference ++ PROMPT_TAIL ++ LF)
    with (LF ++ (PROMPT_HEAD ++ task ++ PROMPT_MIDDLE ++ reference ++ PROMPT_TAIL) ++ LF)
    by (by rewrite <- !app_assoc).
  apply trim_between_newlines.
  - by apply clean_start_app.
  - rewrite !rev_app_distr. rewrite <- !app_assoc. by apply clean_start_app.
Qed.

(** C5. For an authenticated /api/ia request with a non-empty task, the
    user prompt is the fixed template with the task and the selected
    text embedded verbatim; an empty or absent selected text is replaced
    by the placeholder sentence. Once a key is resolved this prompt is
    the user message of the completion call, and when the request has no
    [mode] the response that carries the text has [mode] "replace". *)
Theorem generate_prompt_and_mode `{!Engine} (req : Request.t) (s : state)
    (r : Client.t) (task : jsstring) :
  getClientRecord (clients s) (Request.clientId req) (Request.clientSecret req) = Some r ->
  Request.prompt req = Str task -> task <> [] ->
  let composed := fullPrompt (Request.prompt req) (Request.selectedText req) in
  (forall text : jsstring,
      Request.selectedText req = Str text -> text <> [] ->
      composed = PROMPT_HEAD ++ task ++ PROMPT_MIDDLE ++ text ++ PROMPT_TAIL)
  /\ (Request.selectedText req = Str [] \/ Request.selectedText req = Undefined ->
      composed = PROMPT_HEAD ++ task ++ PROMPT_MIDDLE ++ PLACEHOLDER ++ PROMPT_TAIL)
  /\ (truthy (js_or (Client.openaiApiKey r) (OPENAI_API_KEY s)) = true ->
      exists (c : Call.t) (k : upstream -> state -> response * state) (system : value),
        api_ia req s = Await c (loadAssistants s) k
        /\ Call.messages c = [(u "system", system); (u "user", Str composed)]
        /\ (Request.mode req = Undefined ->
            forall (completion : value) (s' : state),
            exists text : jsstring,
              k (Resolves completion) s'
              = (mkResponse 200
                   (Obj [(u "text", Str text); (u "mode", Str (u "replace"))]),
                 s'))).
Proof.
  intros Hauth Hprompt Htask composed.
  split; [| split].
  - intros text Hsel Htext. unfold composed. rewrite fullPrompt_eq, Hprompt, Hsel.
    unfold js_or. apply truthy_Str in Htext. by rewrite Htext.
  - intros Hsel. unfold composed. rewrite fullPrompt_eq, Hprompt.
    by destruct Hsel as [-> | ->].
  - intros Hkey.
    destruct (getClientRecord_Some _ _ _ _ Hauth) as (Hid & Hsec & _).
    apply truthy_Str in Htask.
    unfold api_ia. rewrite Hid, Hsec, Hauth, Hprompt, Htask, Hkey. simpl.
    do 3 eexists. split; [reflexivity |]. split; [by rewrite <- Hprompt |].
    intros Hmode completion s'.
    destruct (answer_never_throws completion) as [text ->].
    exists text. by rewrite Hmode.
Qed.

Lemma generate_prompt_and_mode_witness :
  fullPrompt (Str (u "Resuma isto")) (Str (u "Lorem ipsum"))
  = PROMPT_HEAD ++ u "Resuma isto" ++ PROMPT_MIDDLE ++ u "Lorem ipsum" ++ PROMPT_TAIL.
Proof.
  apply (proj1 (generate_prompt_and_mode (H := sample_engine)
                  (with_selectedText "Lorem ipsum"
                     (with_prompt "Resuma isto"
                        (with_credentials "cliente123" "minha-senha-secreta" empty_request)))
                  sample_state cliente123 (u "Resuma isto")
                  ltac:(vm_compute; reflexivity) eq_refl ltac:(vm_compute; discriminate))
           (u "Lorem ipsum") eq_refl ltac:(vm_compute; discriminate)).
Defined.

(** ** Empty overrides *)

Lemma content_or_blank_reply `{!Engine} (fallback : jsstring) :
  content_or fallback blank_reply = Ok [].
Proof. vm_compute. reflexivity. Qed.

(** C10. The tenant id [toString]. With the empty string stored as the
    tenant's override, /api/ia sends the default persona as system
    prompt. With no override stored, line 122 reads the function every
    object inherits under that name; it is truthy, so it is what the
    call carries as system prompt, and the default persona is not sent:
    the empty override and the absent one are told apart. *)
Theorem inherited_member_is_not_default_persona :
  let req := with_prompt "Resuma isto"
               (with_credentials "toString" "segredo-um" empty_request) in
  let user := (u "user", Str (fullPrompt (Request.prompt req) (Request.selectedText req))) in
  let absent := prototype_named_state in
  let empty := saveAssistant (Request.clientId req) [] absent in
  assistants (loadAssistants absent) !! to_string (Request.clientId req) = None
  /\ assistants (loadAssistants empty) !! to_string (Request.clientId req) = Some (Str [])
  /\ match api_ia (H := sample_engine) req empty with
     | Await c _ _ => Call.messages c = [(u "system", Str DEFAULT_SYSTEM_PROMPT); user]
     | Respond _ _ => False
     end
  /\ match api_ia (H := sample_engine) req absent with
     | Await c _ _ =>
       Call.messages c = [(u "system", Builtin (u "toString")); user]
       /\ Call.messages c <> [(u "system", Str DEFAULT_SYSTEM_PROMPT); user]
     | Respond _ _ => False
     end.
Proof.
  intros req user absent empty.
  do 3 (split; [vm_compute; reflexivity |]).
  vm_compute. split; [reflexivity | discriminate].
Qed.

(** X23. When the override stored for a tenant is the empty string,
    /api/ia sends the hard-coded default persona as system prompt,
    whatever the tenant's id; for an id that is not the name of a member
    of Object.prototype this is the very call it makes when the tenant
    has no override at all. Such an empty override does get stored:
    when the model replies to /api/configure with a single space, the
    content is accepted as non-empty, trimmed to the empty string,
    returned with status 200 and, for every id whose assignment leaves
    an own property, saved for the tenant. *)
Theorem empty_override_is_ignored `{!Engine} (req : Request.t) (s : state) (r : Client.t) :
  getClientRecord (clients s) (Request.clientId req) (Request.clientSecret req) = Some r ->
  let apiKey := js_or (Client.openaiApiKey r) (OPENAI_API_KEY s) in
  let key := to_string (Request.clientId req) in
  truthy apiKey = true ->
  (truthy (Request.prompt req) = true ->
   assistants (loadAssistants s) !! key = Some (Str [])
   \/ (assistants (loadAssistants s) !! key = None /\ inherited key = false) ->
   exists k : upstream -> state -> response * state,
     api_ia req s
     = Await
         {| Call.apiKey := apiKey;
            Call.model := u "gpt-4o-mini";
            Call.messages :=
              [(u "system", Str DEFAULT_SYSTEM_PROMPT);
               (u "user", Str (fullPrompt (Request.prompt req) (Request.selectedText req)))];
            Call.temperature := Num (u "0.3") |}
         (loadAssistants s) k)
  /\ (truthy (Request.rawPrompt req) = true ->
      truthy (Str (u " ")) = true
      /\ trim (u " ") = []
      /\ exists (c : Call.t) (k : upstream -> state -> response * state),
           api_configure req s = Await c s k
           /\ forall s1 : state,
                let done := k (Resolves blank_reply) s1 in
                fst done
                = mkResponse 200
                    (Obj [(u "success", Bool true); (u "optimizedPrompt", Str [])])
                /\ (key <> PROTO \/ is_Some (assistants (loadAssistants s1) !! key) ->
                    assistantsFile (snd done)
                    = Holds (<[key := Str []]> (assistants (loadAssistants s1)))
                    /\ assistants (loadAssistants (snd done)) !! key = Some (Str []))).
Proof.
  intros Hauth apiKey key Hkey.
  destruct (getClientRecord_Some _ _ _ _ Hauth) as (Hid & Hsec & _).
  split.
  - intros Hprompt Hentry.
    unfold api_ia. rewrite Hid, Hsec, Hauth, Hprompt. simpl.
    fold apiKey. rewrite Hkey. simpl.
    unfold assistant_of, read. fold key.
    eexists. by destruct Hentry as [-> | [-> ->]].
  - intros Hraw. split; [reflexivity |]. split; [reflexivity |].
    unfold api_configure. rewrite Hid, Hsec, Hauth, Hraw. simpl.
    fold apiKey. rewrite Hkey. simpl.
    do 2 eexists. split; [reflexivity |].
    intros s1. cbv beta iota zeta. rewrite content_or_blank_reply.
    split; [reflexivity |].
    intros Hok. cbn [snd]. rewrite saveAssistant_unfold. fold key.
    rewrite assign_own by exact Hok.
    unfold loadAssistants. simpl. by rewrite lookup_insert_eq.
Qed.

Lemma empty_override_is_ignored_witness :
  let req := with_prompt "Resuma isto"
               (with_credentials "cliente123" "minha-senha-secreta" empty_request) in
  let s := saveAssistant (Str (u "cliente123")) [] sample_state in
  exists k : upstream -> state -> response * state,
    api_ia (H := sample_engine) req s
    = Await
        {| Call.apiKey := Str (u "sk-live-abcdefg");
           Call.model := u "gpt-4o-mini";
           Call.messages :=
             [(u "system", Str DEFAULT_SYSTEM_PROMPT);
              (u "user", Str (fullPrompt (Request.prompt req) (Request.selectedText req)))];
           Call.temperature := Num (u "0.3") |}
        (loadAssistants s) k.
Proof.
  intros req s.
  apply (proj1 (empty_override_is_ignored (H := sample_engine) req s cliente123
                  ltac:(vm_compute; reflexivity) ltac:(vm_compute; reflexivity))).
  - vm_compute; reflexivity.
  - left. vm_compute; reflexivity.
Defined.

(** * Further properties of the server

    ** What a suspended handler has checked *)

Lemma api_ia_await `{!Engine} (req : Request.t) (s s1 : state) (c : Call.t)
    (k : upstream -> state -> response * state) :
  api_ia req s = Await c s1 k ->
  exists r : Client.t,
    getClientRecord (clients s) (Request.clientId req) (Request.clientSecret req) = Some r
    /\ truthy (Request.prompt req) = true
    /\ truthy (js_or (Client.openaiApiKey r) (OPENAI_API_KEY s)) = true
    /\ s1 = loadAssistants s
    /\ c = {| Call.apiKey := js_or (Client.openaiApiKey r) (OPENAI_API_KEY s);
              Call.model := u "gpt-4o-mini";
              Call.messages :=
                [(u "system",
                  js_or (assistant_of (loadAssistants s) (Request.clientId req))
                    (Str DEFAULT_SYSTEM_PROMPT));
                 (u "user",
                  Str (fullPrompt (Request.prompt req) (Request.selectedText req)))];
              Call.temperature := Num (u "0.3") |}
    /\ (forall (message : value) (s2 : state),
          k (Rejects message) s2 = (caught message "Erro interno", s2))
    /\ (forall (completion : value) (s2 : state),
          exists text : jsstring,
            answer completion = Ok (Str text)
            /\ k (Resolves completion) s2
               = (mkResponse 200
                    (Obj [(u "text", Str text);
                          (u "mode", js_or (Request.mode req) (Str (u "replace")))]),
                  s2)).
Proof.
  unfold api_ia. intros Hrun.
  destruct (negb (truthy (Request.clientId req)) || negb (truthy (Request.clientSecret req)));
    [discriminate |].
  destruct (getClientRecord _ _ _) as [r |]; [| discriminate].
  destruct (truthy (Request.prompt req)) eqn:Hprompt; [| discriminate].
  destruct (truthy (js_or (Client.openaiApiKey r) (OPENAI_API_KEY s))) eqn:Hkey;
    [| discriminate].
  simpl in Hrun. injection Hrun as <- <- <-.
  exists r. do 2 (split; [reflexivity |]). split; [exact Hkey |].
  do 3 (split; [reflexivity |]).
  intros completion s2.
  destruct (answer_never_throws completion) as [text Htext].
  exists text. split; [exact Htext |]. by rewrite Htext.
Qed.

Lemma api_configure_await `{!Engine} (req : Request.t) (s s1 : state) (c : Call.t)
    (k : upstream -> state -> response * state) :
  api_configure req s = Await c s1 k ->
  exists r : Client.t,
    getClientRecord (clients s) (Request.clientId req) (Request.clientSecret req) = Some r
    /\ truthy (Request.rawPrompt req) = true
    /\ truthy (js_or (Client.openaiApiKey r) (OPENAI_API_KEY s)) = true
    /\ s1 = s
    /\ c = {| Call.apiKey := js_or (Client.openaiApiKey r) (OPENAI_API_KEY s);
              Call.model := u "gpt-4o-mini";
              Call.messages :=
                [(u "system", Str OPTIMIZER_SYSTEM_PROMPT);
                 (u "user", Str (optimizationPrompt (Request.rawPrompt req)))];
              Call.temperature := Num (u "0.7") |}
    /\ (forall (message : value) (s2 : state),
          k (Rejects message) s2 = (caught message "Internal Error", s2))
    /\ (forall (completion : value) (s2 : state) (e : runtime_error),
          content_or OPTIMIZED_FALLBACK completion = Throw e ->
          k (Resolves completion) s2 = (caught (error_message e) "Internal Error", s2))
    /\ (forall (completion : value) (s2 : state) (optimizedPrompt : jsstring),
          content_or OPTIMIZED_FALLBACK completion = Ok optimizedPrompt ->
          k (Resolves completion) s2
          = (mkResponse 200
               (Obj [(u "success", Bool true);
                     (u "optimizedPrompt", Str optimizedPrompt)]),
             saveAssistant (Request.clientId req) optimizedPrompt s2)).
Proof.
  unfold api_configure. intros Hrun.
  destruct (negb (truthy (Request.clientId req)) || negb (truthy (Request.clientSecret req)));
    [discriminate |].
  destruct (getClientRecord _ _ _) as [r |]; [| discriminate].
  destruct (truthy (Request.rawPrompt req)) eqn:Hraw; [| discriminate].
  destruct (truthy (js_or (Client.openaiApiKey r) (OPENAI_API_KEY s))) eqn:Hkey;
    [| discriminate].
  simpl in Hrun. injection Hrun as <- <- <-.
  exists r. do 2 (split; [reflexivity |]). split; [exact Hkey |].
  do 3 (split; [reflexivity |]).
  split; intros completion s2 x Hx; by rewrite Hx.
Qed.

Lemma api_analyze_await `{!Engine} (req : Request.t) (s s1 : state) (c : Call.t)
    (k : upstream -> state -> response * state) :
  api_analyze req s = Await c s1 k ->
  exists r : Client.t,
    getClientRecord (clients s) (Request.clientId req) (Request.clientSecret req) = Some r
    /\ truthy (Request.documentText req) = true
    /\ truthy (js_or (Client.openaiApiKey r) (OPENAI_API_KEY s)) = true
    /\ s1 = s
    /\ c = {| Call.apiKey := js_or (Client.openaiApiKey r) (OPENAI_API_KEY s);
              Call.model := u "gpt-4o-mini";
              Call.messages :=
                [(u "system", Str EXPERT_PROMPT);
                 (u "user", Str (analysisPrompt (Request.documentText req)))];
              Call.temperature := Num (u "0.4") |}
    /\ (forall (message : value) (s2 : state),
          k (Rejects message) s2 = (caught message "Internal Error", s2))
    /\ (forall (completion : value) (s2 : state) (e : runtime_error),
          content_or ANALYSIS_FALLBACK completion = Throw e ->
          k (Resolves completion) s2 = (caught (error_message e) "Internal Error", s2))
    /\ (forall (completion : value) (s2 : state) (analysis : jsstring),
          content_or ANALYSIS_FALLBACK completion = Ok analysis ->
          k (Resolves completion) s2
          = (mkResponse 200 (Obj [(u "analysis", Str analysis)]), s2)).
Proof.
  unfold api_analyze. intros Hrun.
  destruct (negb (truthy (Request.clientId req)) || negb (truthy (Request.clientSecret req)));
    [discriminate |].
  destruct (getClientRecord _ _ _) as [r |]; [| discriminate].
  destruct (truthy (Request.documentText req)) eqn:Hdoc; [| discriminate].
  destruct (truthy (js_or (Client.openaiApiKey r) (OPENAI_API_KEY s))) eqn:Hkey;
    [| discriminate].
  simpl in Hrun. injection Hrun as <- <- <-.
  exists r. do 2 (split; [reflexivity |]). split; [exact Hkey |].
  do 3 (split; [reflexivity |]).
  split; intros completion s2 x Hx; by rewrite Hx.
Qed.

(** ** The credential lookup, beyond unique records *)

Lemma find_first {A} (p : A -> bool) (l : list A) (x : A) :
  List.find p l = Some x
  <-> exists before after : list A,
        l = before ++ x :: after /\ p x = true
        /\ forall y, y ∈ before -> p y = false.
Proof.
  split.
  - induction l as [| a l IH]; simpl; [discriminate |].
    destruct (p a) eqn:Hp.
    + intros [= ->]. exists [], l. split; [reflexivity |]. split; [exact Hp |].
      intros y Hy. by apply elem_of_nil in Hy.
    + intros Hfind. destruct (IH Hfind) as (before & after & -> & Hx & Hbefore).
      exists (a :: before), after. split; [reflexivity |]. split; [exact Hx |].
      intros y Hy. apply elem_of_cons in Hy as [-> | Hy]; [exact Hp | by apply Hbefore].
  - intros (before & after & -> & Hx & Hbefore).
    induction before as [| a before IH]; simpl.
    + by rewrite Hx.
    + rewrite (Hbefore a) by apply list_elem_of_here.
      apply IH. intros y Hy. apply Hbefore. by apply list_elem_of_further.
Qed.

(** X1. When several records carry the presented id and secret, the
    lookup returns the first of them in the order of clients.json: a
    record is returned exactly when it carries the pair and no record
    before it does. *)
Theorem getClientRecord_first_match (cs : list Client.t) (i sec : jsstring) (r : Client.t) :
  i <> [] -> sec <> [] ->
  getClientRecord cs (Str i) (Str sec) = Some r
  <-> exists before after : list Client.t,
        cs = before ++ r :: after
        /\ Client.id r = Str i /\ Client.secret r = Str sec
        /\ forall x : Client.t,
             x ∈ before -> ~ (Client.id x = Str i /\ Client.secret x = Str sec).
Proof.
  intros Hi Hsec.
  rewrite getClientRecord_find by by apply truthy_Str.
  rewrite find_first. split.
  - intros (before & after & Hcs & Hm & Hbefore).
    exists before, after. split; [exact Hcs |].
    apply matches_Str in Hm as [Hid Hs]; [| exact Hsec].
    split; [exact Hid |]. split; [exact Hs |].
    intros x Hx Hpair. apply (matches_Str i sec x Hsec) in Hpair.
    rewrite (Hbefore x Hx) in Hpair. discriminate.
  - intros (before & after & Hcs & Hid & Hs & Hbefore).
    exists before, after. split; [exact Hcs |].
    split; [by apply matches_Str |].
    intros x Hx. destruct (matches (Str i) (Str sec) x) eqn:Hm; [| reflexivity].
    apply matches_Str in Hm; [| exact Hsec]. by destruct (Hbefore x Hx).
Qed.

Lemma getClientRecord_first_match_witness :
  getClientRecord
    [cliente123; Client.set_openaiApiKey (Str (u "sk-a")) cliente456;
     Client.set_openaiApiKey (Str (u "sk-b")) cliente456]
    (Str (u "cliente456")) (Str (u "outra-senha"))
  = Some (Client.set_openaiApiKey (Str (u "sk-a")) cliente456).
Proof.
  apply (proj2 (getClientRecord_first_match _ (u "cliente456") (u "outra-senha") _
                  ltac:(vm_compute; discriminate) ltac:(vm_compute; discriminate))).
  exists [cliente123], [Client.set_openaiApiKey (Str (u "sk-b")) cliente456].
  split; [reflexivity |]. split; [reflexivity |]. split; [reflexivity |].
  intros x Hx [Hid _]. apply list_elem_of_singleton in Hx as ->.
  vm_compute in Hid. discriminate.
Defined.

(** X2. Whoever is authenticated presented a primitive id and a
    primitive secret (true, a number, or a non-empty string; never null,
    an array or an object), and the record returned has exactly that id
    and that secret, the secret being non-empty: a record stored with an
    empty or missing secret cannot be used to authenticate. *)
Theorem getClientRecord_authenticates_primitives (cs : list Client.t)
    (clientId clientSecret : value) (r : Client.t) :
  getClientRecord cs clientId clientSecret = Some r ->
  let primitive (v : value) :=
    v = Bool true \/ (exists n : jsstring, v = Num n /\ n <> u "0")
    \/ (exists t : jsstring, v = Str t /\ t <> []) in
  primitive clientId /\ primitive clientSecret
  /\ r ∈ cs /\ Client.id r = clientId /\ Client.secret r = clientSecret
  /\ Client.secret r <> Undefined /\ Client.secret r <> Str [].
Proof.
  intros Hauth primitive.
  destruct (getClientRecord_Some _ _ _ _ Hauth) as (Hid & Hsec & Hin & Hrid & Hrsec).
  assert (forall a b : value,
             strict_eq a b = true -> truthy b = true -> primitive b) as Hprim.
  { intros a b Heq Hb. unfold primitive.
    destruct a as [| | a1 | a1 | a1 | a1 | a1 | a1], b as [| | b1 | b1 | b1 | b1 | b1 | b1];
      simpl in Heq; try discriminate.
    - simpl in Hb. subst b1. by left.
    - right; left. exists b1. split; [reflexivity |].
      simpl in Hb. apply andb_true_iff in Hb as [Hb _].
      apply negb_true_iff in Hb. intros ->. by rewrite jsstring_eqb_refl in Hb.
    - right; right. exists b1. split; [reflexivity |]. by apply truthy_Str. }
  rewrite getClientRecord_find in Hauth by done.
  apply find_some in Hauth as [_ Hm].
  unfold matches in Hm. rewrite !andb_true_iff in Hm. destruct Hm as [[H1 H2] H3].
  split; [by eapply Hprim |]. split; [by eapply Hprim |].
  split; [exact Hin |]. split; [exact Hrid |]. split; [exact Hrsec |].
  split; intros Heq; rewrite Heq in H2; discriminate.
Qed.

Lemma getClientRecord_authenticates_primitives_witness :
  Client.secret cliente456 <> Str [].
Proof.
  apply (getClientRecord_authenticates_primitives sample_clients
           (Str (u "cliente456")) (Str (u "outra-senha")) cliente456
           ltac:(vm_compute; reflexivity)).
Defined.

(** ** What reaches the completion API *)

(** X3. Whenever /api/ia, /api/configure or /api/analyze calls the
    completion API, the request was authenticated against the client
    list in memory, and the key of the call is non-empty and is either
    that record's own key or OPENAI_API_KEY; the model is always
    gpt-4o-mini. *)
Theorem call_requires_authentication_and_key `{!Engine} (req : Request.t) (s s1 : state)
    (c : Call.t) (k : upstream -> state -> response * state) :
  api_ia req s = Await c s1 k
  \/ api_configure req s = Await c s1 k
  \/ api_analyze req s = Await c s1 k ->
  exists r : Client.t,
    getClientRecord (clients s) (Request.clientId req) (Request.clientSecret req) = Some r
    /\ r ∈ clients s
    /\ truthy (Call.apiKey c) = true
    /\ (Call.apiKey c = Client.openaiApiKey r
        \/ truthy (Client.openaiApiKey r) = false /\ Call.apiKey c = OPENAI_API_KEY s)
    /\ Call.model c = u "gpt-4o-mini".
Proof.
  assert (forall r : Client.t,
             getClientRecord (clients s) (Request.clientId req) (Request.clientSecret req)
             = Some r ->
             truthy (js_or (Client.openaiApiKey r) (OPENAI_API_KEY s)) = true ->
             c = {| Call.apiKey := js_or (Client.openaiApiKey r) (OPENAI_API_KEY s);
                    Call.model := Call.model c;
                    Call.messages := Call.messages c;
                    Call.temperature := Call.temperature c |} ->
             Call.model c = u "gpt-4o-mini" ->
             exists r : Client.t,
               getClientRecord (clients s) (Request.clientId req) (Request.clientSecret req)
               = Some r
               /\ r ∈ clients s
               /\ truthy (Call.apiKey c) = true
               /\ (Call.apiKey c = Client.openaiApiKey r
                   \/ truthy (Client.openaiApiKey r) = false
                      /\ Call.apiKey c = OPENAI_API_KEY s)
               /\ Call.model c = u "gpt-4o-mini") as Hcommon.
  { intros r Hauth Hkey Hc Hmodel. exists r.
    destruct (getClientRecord_Some _ _ _ _ Hauth) as (_ & _ & Hin & _).
    split; [exact Hauth |]. split; [exact Hin |].
    rewrite Hc. simpl. split; [exact Hkey |]. split; [| exact Hmodel].
    unfold js_or. destruct (truthy (Client.openaiApiKey r)); [by left | by right]. }
  intros [Hrun | [Hrun | Hrun]].
  - destruct (api_ia_await _ _ _ _ _ Hrun) as (r & Hauth & _ & Hkey & _ & Hc & _).
    apply (Hcommon r Hauth Hkey); by rewrite Hc.
  - destruct (api_configure_await _ _ _ _ _ Hrun) as (r & Hauth & _ & Hkey & _ & Hc & _).
    apply (Hcommon r Hauth Hkey); by rewrite Hc.
  - destruct (api_analyze_await _ _ _ _ _ Hrun) as (r & Hauth & _ & Hkey & _ & Hc & _).
    apply (Hcommon r Hauth Hkey); by rewrite Hc.
Qed.

Lemma call_requires_authentication_and_key_witness :
  match api_analyze (H := sample_engine)
          (with_documentText (Str (u "Contrato de locação."))
             (with_credentials "cliente456" "outra-senha" empty_request))
          sample_state
  with
  | Await c _ _ => truthy (Call.apiKey c) = true
  | Respond _ _ => False
  end.
Proof.
  destruct (api_analyze _ _) as [resp s1 | c s1 k] eqn:Hrun.
  - vm_compute in Hrun. discriminate.
  - destruct (call_requires_authentication_and_key (H := sample_engine) _ _ _ _ _
                (or_intror (or_intror Hrun))) as (r & _ & _ & Hkey & _).
    exact Hkey.
Defined.

(** X4. /api/ia and /api/analyze never write: an immediate response
    leaves the state as it is, /api/ia reloads the overrides into memory
    before it calls out and changes nothing else, and whatever the
    completion API answers, the state is returned as it was found.
    /api/configure changes nothing before its call and afterwards only
    the override store. *)
Theorem handlers_footprint `{!Engine} (req : Request.t) (s : state) :
  (forall (resp : response) (s' : state),
      api_ia req s = Respond resp s'
      \/ api_configure req s = Respond resp s'
      \/ api_analyze req s = Respond resp s' ->
      s' = s)
  /\ (forall (c : Call.t) (s1 : state) (k : upstream -> state -> response * state),
        api_ia req s = Await c s1 k ->
        s1 = loadAssistants s
        /\ clients s1 = clients s /\ clientsFile s1 = clientsFile s
        /\ assistantsFile s1 = assistantsFile s
        /\ forall (up : upstream) (s2 : state), snd (k up s2) = s2)
  /\ (forall (c : Call.t) (s1 : state) (k : upstream -> state -> response * state),
        api_analyze req s = Await c s1 k ->
        s1 = s /\ forall (up : upstream) (s2 : state), snd (k up s2) = s2)
  /\ (forall (c : Call.t) (s1 : state) (k : upstream -> state -> response * state),
        api_configure req s = Await c s1 k ->
        s1 = s
        /\ forall (up : upstream) (s2 : state),
             clients (snd (k up s2)) = clients s2
             /\ clientsFile (snd (k up s2)) = clientsFile s2
             /\ OPENAI_API_KEY (snd (k up s2)) = OPENAI_API_KEY s2).
Proof.
  split; [| split; [| split]].
  - intros resp s'. unfold api_ia, api_configure, api_analyze.
    destruct (negb (truthy (Request.clientId req)) || negb (truthy (Request.clientSecret req))).
    { intros [[= _ <-] | [[= _ <-] | [= _ <-]]]; reflexivity. }
    destruct (getClientRecord _ _ _) as [r |];
      [| intros [[= _ <-] | [[= _ <-] | [= _ <-]]]; reflexivity].
    destruct (truthy (js_or (Client.openaiApiKey r) (OPENAI_API_KEY s)));
      destruct (truthy (Request.prompt req)), (truthy (Request.rawPrompt req)),
               (truthy (Request.documentText req)); simpl;
      intros [Hr | [Hr | Hr]]; first [discriminate | by injection Hr as _ <-].
  - intros c s1 k Hrun.
    destruct (api_ia_await _ _ _ _ _ Hrun) as (r & _ & _ & _ & -> & _ & Hrej & Hres).
    split; [reflexivity |].
    unfold loadAssistants. destruct (assistantsFile s) eqn:Hfile; simpl;
      (do 3 (split; [by rewrite ?Hfile |])).
    all: intros [completion | message] s2;
      [ destruct (Hres completion s2) as (text & _ & ->); reflexivity
      | rewrite Hrej; reflexivity ].
  - intros c s1 k Hrun.
    destruct (api_analyze_await _ _ _ _ _ Hrun)
      as (r & _ & _ & _ & -> & _ & Hrej & Hthrow & Hok).
    split; [reflexivity |].
    intros [completion | message] s2; [| by rewrite Hrej].
    destruct (content_or ANALYSIS_FALLBACK completion) as [text | e] eqn:Hc.
    + by rewrite (Hok _ _ _ Hc).
    + by rewrite (Hthrow _ _ _ Hc).
  - intros c s1 k Hrun.
    destruct (api_configure_await _ _ _ _ _ Hrun)
      as (r & _ & _ & _ & -> & _ & Hrej & Hthrow & Hok).
    split; [reflexivity |].
    intros [completion | message] s2; [| by rewrite Hrej].
    destruct (content_or OPTIMIZED_FALLBACK completion) as [text | e] eqn:Hc.
    + rewrite (Hok _ _ _ Hc). simpl.
      unfold saveAssistant, loadAssistants. by destruct (assistantsFile s2).
    + by rewrite (Hthrow _ _ _ Hc).
Qed.

Lemma handlers_footprint_witness :
  match api_ia (H := sample_engine)
          (with_prompt "Resuma isto"
             (with_credentials "cliente456" "outra-senha" empty_request))
          sample_state
  with
  | Await _ _ k => snd (k (Rejects (Str (u "429 Too Many Requests"))) sample_state)
                   = sample_state
  | Respond _ _ => False
  end.
Proof.
  destruct (api_ia _ _) as [resp s1 | c s1 k] eqn:Hrun.
  - vm_compute in Hrun. discriminate.
  - apply (proj1 (proj2 (handlers_footprint (H := sample_engine) _ _)) c s1 k Hrun).
Defined.

(** ** The extraction of /api/configure and /api/analyze *)

Lemma content_or_first_choice `{!Engine} (fallback : jsstring) (props : list (jsstring * value))
    (choice : value) (rest : list value) :
  own_property props (u "choices") = Arr (choice :: rest) ->
  content_or fallback (Obj props)
  = (message ← get choice (u "message");
     content ← get message (u "content");
     if truthy content then call_trim content else Ok fallback).
Proof.
  intros Hchoices. unfold content_or. simpl. rewrite Hchoices. reflexivity.
Qed.

(** X5. The extraction shared by /api/configure and /api/analyze: for a
    well-shaped completion it gives the trimmed content, or the
    handler's fallback text when the content is the empty string; it
    gives the fallback as well when the completion is missing, when
    [choices] is missing or an empty array, and when the content is null
    or absent. Unlike /api/ia it fails with a TypeError when the first
    choice is null or has no message, and when the content is a number,
    [true], an array or an object. *)
Theorem content_or_spec `{!Engine} (fallback : jsstring) (completion : value) :
  (forall text : jsstring,
      first_choice_content completion text ->
      content_or fallback completion
      = Ok (if decide (text = []) then fallback else trim text))
  /\ (truthy completion = false -> content_or fallback completion = Ok fallback)
  /\ (forall props : list (jsstring * value),
        completion = Obj props ->
        own_property props (u "choices") = Undefined
        \/ own_property props (u "choices") = Null
        \/ own_property props (u "choices") = Arr [] ->
        content_or fallback completion = Ok fallback)
  /\ (forall (props cprops mprops : list (jsstring * value)) (rest : list value),
        completion = Obj props ->
        own_property props (u "choices") = Arr (Obj cprops :: rest) ->
        own_property cprops (u "message") = Obj mprops ->
        own_property mprops (u "content") = Null
        \/ own_property mprops (u "content") = Undefined ->
        content_or fallback completion = Ok fallback)
  /\ (forall (props : list (jsstring * value)) (choice : value) (rest : list value),
        completion = Obj props ->
        own_property props (u "choices") = Arr (choice :: rest) ->
        choice = Null
        \/ (exists cprops : list (jsstring * value),
               choice = Obj cprops
               /\ (own_property cprops (u "message") = Undefined
                   \/ own_property cprops (u "message") = Null)) ->
        content_or fallback completion = Throw TypeError)
  /\ (forall (props cprops mprops : list (jsstring * value)) (rest : list value)
             (content : value),
        completion = Obj props ->
        own_property props (u "choices") = Arr (Obj cprops :: rest) ->
        own_property cprops (u "message") = Obj mprops ->
        own_property mprops (u "content") = content ->
        truthy content = true -> (forall text : jsstring, content <> Str text) ->
        content_or fallback completion = Throw TypeError).
Proof.
  split; [| split; [| split; [| split; [| split]]]].
  - intros text [props cprops mprops rest text' Hchoices Hmessage Hcontent].
    rewrite (content_or_first_choice _ _ _ _ Hchoices). simpl.
    rewrite Hmessage. simpl. rewrite Hcontent. simpl.
    unfold jsstring_eqb. destruct (decide (text' = [])) as [-> | Hne].
    + reflexivity.
    + by rewrite bool_decide_eq_false_2.
  - intros Hfalsy. unfold content_or. by rewrite Hfalsy.
  - intros props -> Hchoices. unfold content_or. simpl.
    by destruct Hchoices as [-> | [-> | ->]].
  - intros props cprops mprops rest -> Hchoices Hmessage Hcontent.
    rewrite (content_or_first_choice _ _ _ _ Hchoices). simpl.
    rewrite Hmessage. simpl. by destruct Hcontent as [-> | ->].
  - intros props choice rest -> Hchoices Hchoice.
    rewrite (content_or_first_choice _ _ _ _ Hchoices).
    destruct Hchoice as [-> | (cprops & -> & Hmessage)]; [reflexivity |].
    simpl. by destruct Hmessage as [-> | ->].
  - intros props cprops mprops rest content -> Hchoices Hmessage Hcontent Htruthy Hnot.
    rewrite (content_or_first_choice _ _ _ _ Hchoices). simpl.
    rewrite Hmessage. simpl. rewrite Hcontent. simpl. rewrite Htruthy.
    destruct content; try reflexivity. by destruct (Hnot s).
Qed.

Lemma content_or_spec_witness :
  content_or (H := sample_engine) ANALYSIS_FALLBACK
    (Obj [(u "choices", Arr [Obj [(u "finish_reason", Str (u "length"))]])])
  = Throw TypeError.
Proof.
  apply (proj1 (proj2 (proj2 (proj2 (proj2
           (content_or_spec (H := sample_engine) ANALYSIS_FALLBACK _)))))
           _ (Obj [(u "finish_reason", Str (u "length"))]) [] eq_refl).
  - vm_compute; reflexivity.
  - right. eexists. split; [reflexivity |]. left. vm_compute; reflexivity.
Defined.

(** ** /api/configure *)

(** X6. What /api/configure answers tells what it has saved. A 200
    response carries an optimized prompt that was extracted from a
    resolved completion, and the state is then the one
    [saveAssistant] leaves for that text: assistants.json holds the
    mapping in memory, and the tenant's entry in it is the returned
    text, for every id whose assignment leaves an own property. When
    the completion call is rejected, or the extraction throws, the
    answer is 500 and the stores are as the handler found them. *)
Theorem configure_saves_what_it_returns `{!Engine} (req : Request.t) (s s1 : state)
    (c : Call.t) (k : upstream -> state -> response * state) :
  api_configure req s = Await c s1 k ->
  forall (up : upstream) (s2 : state),
    let key := to_string (Request.clientId req) in
    let done := k up s2 in
    (forall optimizedPrompt : jsstring,
        fst done
        = mkResponse 200
            (Obj [(u "success", Bool true); (u "optimizedPrompt", Str optimizedPrompt)]) ->
        (exists completion : value,
            up = Resolves completion
            /\ content_or OPTIMIZED_FALLBACK completion = Ok optimizedPrompt)
        /\ snd done = saveAssistant (Request.clientId req) optimizedPrompt s2
        /\ assistantsFile (snd done) = Holds (assistants (snd done))
        /\ (key <> PROTO \/ is_Some (assistants (loadAssistants s2) !! key) ->
            assistant_of (snd done) (Request.clientId req) = Str optimizedPrompt))
    /\ ((exists message : value, up = Rejects message)
        \/ (exists (completion : value) (e : runtime_error),
               up = Resolves completion
               /\ content_or OPTIMIZED_FALLBACK completion = Throw e) ->
        status (fst done) = 500 /\ snd done = s2).
Proof.
  intros Hrun up s2 key done. unfold done.
  destruct (api_configure_await _ _ _ _ _ Hrun)
    as (r & _ & _ & _ & _ & _ & Hrej & Hthrow & Hok).
  split.
  - intros p Hresp.
    destruct up as [completion | message].
    2: { rewrite Hrej in Hresp. apply (f_equal status) in Hresp. discriminate. }
    destruct (content_or OPTIMIZED_FALLBACK completion) as [p' | e] eqn:Hc.
    2: { rewrite (Hthrow _ _ _ Hc) in Hresp. apply (f_equal status) in Hresp.
         discriminate. }
    rewrite (Hok _ _ _ Hc) in Hresp |- *. cbn [fst snd] in Hresp |- *.
    assert (p' = p) as -> by (injection Hresp; auto).
    split; [by exists completion |]. split; [reflexivity |].
    rewrite saveAssistant_unfold. fold key. simpl.
    split; [reflexivity |].
    intros Hstored. unfold assistant_of, read. simpl. fold key.
    rewrite assign_own by exact Hstored. by rewrite lookup_insert_eq.
  - intros [[message ->] | (completion & e & -> & Hc)].
    + by rewrite Hrej.
    + by rewrite (Hthrow _ _ _ Hc).
Qed.

Lemma configure_saves_what_it_returns_witness :
  match api_configure (H := sample_engine)
          (with_rawPrompt "Advogado Civilista"
             (with_credentials "cliente456" "outra-senha" empty_request))
          sample_state
  with
  | Await _ _ k =>
    assistant_of
      (snd (k (Resolves (completion_with (Str (u " Aja como civilista. ")))) sample_state))
      (Str (u "cliente456"))
    = Str (u "Aja como civilista.")
  | Respond _ _ => False
  end.
Proof.
  assert (awaits (api_configure (H := sample_engine)
                    (with_rawPrompt "Advogado Civilista"
                       (with_credentials "cliente456" "outra-senha" empty_request))
                    sample_state) = true) as Hawaits by (vm_compute; reflexivity).
  destruct (api_configure _ _) as [resp s1 | c s1 k] eqn:Hrun; [discriminate |].
  assert (content_or (H := sample_engine) OPTIMIZED_FALLBACK
            (completion_with (Str (u " Aja como civilista. ")))
          = Ok (u "Aja como civilista.")) as Hc by (vm_compute; reflexivity).
  destruct (api_configure_await (H := sample_engine) _ _ _ _ _ Hrun)
    as (r & _ & _ & _ & _ & _ & _ & _ & Hok).
  destruct (configure_saves_what_it_returns (H := sample_engine) _ _ _ _ _ Hrun
              (Resolves (completion_with (Str (u " Aja como civilista. ")))) sample_state)
    as [Hsaved _].
  destruct (Hsaved (u "Aja como civilista.")) as (_ & _ & _ & Hread).
  - by rewrite (Hok _ _ _ Hc).
  - apply Hread. left. vm_compute. discriminate.
Defined.

(** X7. An override saved for a tenant is what the tenant's next
    /api/ia request sends as system prompt, provided the text is not
    empty and the assignment of [saveAssistant] leaves an own property
    (the id is not [__proto__], or the reloaded mapping has an own entry
    of that name): the handler reloads assistants.json before composing
    its messages. *)
Theorem saved_override_is_system_prompt `{!Engine} (req : Request.t) (s : state)
    (r : Client.t) (X : value) (optimizedPrompt : jsstring) :
  optimizedPrompt <> [] ->
  to_string X <> PROTO \/ is_Some (assistants (loadAssistants s) !! to_string X) ->
  Request.clientId req = X ->
  getClientRecord (clients s) (Request.clientId req) (Request.clientSecret req) = Some r ->
  truthy (Request.prompt req) = true ->
  truthy (js_or (Client.openaiApiKey r) (OPENAI_API_KEY s)) = true ->
  exists (c : Call.t) (s1 : state) (k : upstream -> state -> response * state),
    api_ia req (saveAssistant X optimizedPrompt s) = Await c s1 k
    /\ Call.messages c
       = [(u "system", Str optimizedPrompt);
          (u "user", Str (fullPrompt (Request.prompt req) (Request.selectedText req)))].
Proof.
  intros Hne Hstored HX Hauth Hprompt Hkey.
  destruct (getClientRecord_Some _ _ _ _ Hauth) as (Hid & Hsec & _).
  unfold api_ia.
  replace (clients (saveAssistant X optimizedPrompt s)) with (clients s)
    by (unfold saveAssistant, loadAssistants; by destruct (assistantsFile s)).
  replace (OPENAI_API_KEY (saveAssistant X optimizedPrompt s)) with (OPENAI_API_KEY s)
    by (unfold saveAssistant, loadAssistants; by destruct (assistantsFile s)).
  rewrite Hid, Hsec, Hauth, Hprompt, Hkey. simpl.
  do 3 eexists. split; [reflexivity |]. simpl.
  rewrite saveAssistant_unfold. unfold assistant_of, read, loadAssistants. simpl.
  rewrite HX, assign_own by exact Hstored. rewrite lookup_insert_eq.
  unfold js_or. apply truthy_Str in Hne. by rewrite Hne.
Qed.

Lemma saved_override_is_system_prompt_witness :
  exists (c : Call.t) (s1 : state) (k : upstream -> state -> response * state),
    api_ia (H := sample_engine)
      (with_prompt "Resuma isto"
         (with_credentials "cliente456" "outra-senha" empty_request))
      (saveAssistant (Str (u "cliente456")) (u "Aja como civilista.") sample_state)
    = Await c s1 k
    /\ Call.messages c
       = [(u "system", Str (u "Aja como civilista."));
          (u "user", Str (fullPrompt (Str (u "Resuma isto")) Undefined))].
Proof.
  apply (saved_override_is_system_prompt (H := sample_engine)
           (with_prompt "Resuma isto"
              (with_credentials "cliente456" "outra-senha" empty_request))
           sample_state cliente456).
  - vm_compute; discriminate.
  - left. vm_compute; discriminate.
  - reflexivity.
  - vm_compute; reflexivity.
  - vm_compute; reflexivity.
  - vm_compute; reflexivity.
Defined.

(** X8. When the completion call is rejected, each of the three
    handlers answers 500 with the error's message, or with its own
    default text when that message is missing or empty (Erro interno for
    /api/ia, Internal Error for the other two), and returns the state as
    it found it. *)
Theorem upstream_rejection `{!Engine} (req : Request.t) (s s1 : state) (c : Call.t)
    (k : upstream -> state -> response * state) (message : value) (s2 : state) :
  (api_ia req s = Await c s1 k ->
   k (Rejects message) s2
   = (mkResponse 500
        (error_body (if truthy message then message else Str (u "Erro interno"))),
      s2))
  /\ (api_configure req s = Await c s1 k \/ api_analyze req s = Await c s1 k ->
      k (Rejects message) s2
      = (mkResponse 500
           (error_body (if truthy message then message else Str (u "Internal Error"))),
         s2)).
Proof.
  split.
  - intros Hrun.
    destruct (api_ia_await _ _ _ _ _ Hrun) as (r & _ & _ & _ & _ & _ & Hrej & _).
    by rewrite Hrej.
  - intros [Hrun | Hrun].
    + destruct (api_configure_await _ _ _ _ _ Hrun)
        as (r & _ & _ & _ & _ & _ & Hrej & _).
      by rewrite Hrej.
    + destruct (api_analyze_await _ _ _ _ _ Hrun)
        as (r & _ & _ & _ & _ & _ & Hrej & _).
      by rewrite Hrej.
Qed.

Lemma upstream_rejection_witness :
  match api_analyze (H := sample_engine)
          (with_documentText (Str (u "Contrato de locação."))
             (with_credentials "cliente456" "outra-senha" empty_request))
          sample_state
  with
  | Await _ _ k =>
    k (Rejects Undefined) sample_state
    = (mkResponse 500 (error_body (Str (u "Internal Error"))), sample_state)
  | Respond _ _ => False
  end.
Proof.
  destruct (api_analyze _ _) as [resp s1 | c s1 k] eqn:Hrun.
  - vm_compute in Hrun. discriminate.
  - apply (proj2 (upstream_rejection (H := sample_engine)
                    (with_documentText (Str (u "Contrato de locação."))
                       (with_credentials "cliente456" "outra-senha" empty_request))
                    sample_state s1 c k Undefined sample_state)).
    right. exact Hrun.
Defined.

(** ** Saving overrides *)

(** X9. After [saveAssistant(X, t)] the mapping in memory is the one
    assistants.json holds, and a further [loadAssistants()] changes
    nothing. The mapping is the one found by the reload that precedes
    the write (the one of the file when it parses, so that entries
    present only in memory are dropped; the empty one when the file
    exists but cannot be parsed; the one in memory when there is no
    file) with [t] as the entry of [X]; only for the id [__proto__],
    when the mapping found has no own entry of that name, it is the
    mapping found, unchanged. The entries and the overrides of every
    other key are those of the mapping found. The client list,
    clients.json and the environment are not touched. *)
Theorem saveAssistant_keeps_store_in_sync (s : state) (X : value) (t : jsstring) :
  let s' := saveAssistant X t s in
  let key := to_string X in
  let found := assistants (loadAssistants s) in
  assistantsFile s' = Holds (assistants s')
  /\ loadAssistants s' = s'
  /\ (forall k : jsstring, k <> key -> assistants s' !! k = found !! k)
  /\ (forall Y : value,
        to_string Y <> key ->
        assistant_of s' Y = assistant_of (loadAssistants s) Y)
  /\ (key <> PROTO \/ is_Some (found !! key) -> assistants s' = <[key := Str t]> found)
  /\ (key = PROTO -> found !! key = None -> assistants s' = found)
  /\ (forall parsed : gmap jsstring value, assistantsFile s = Holds parsed -> found = parsed)
  /\ (assistantsFile s = Unreadable -> found = ∅)
  /\ (assistantsFile s = Missing -> found = assistants s)
  /\ clients s' = clients s /\ clientsFile s' = clientsFile s
  /\ OPENAI_API_KEY s' = OPENAI_API_KEY s.
Proof.
  intros s' key found. unfold s'. rewrite saveAssistant_unfold. fold key found. simpl.
  split; [reflexivity |]. split; [reflexivity |].
  split; [intros k Hne; by apply lookup_assign_ne |].
  split.
  { intros Y Hne. unfold assistant_of, read. simpl. fold found.
    by rewrite lookup_assign_ne. }
  split; [intros Hok; by apply assign_own |].
  split; [intros Hkey Hnone; rewrite Hkey in *; by apply assign_proto |].
  unfold found, loadAssistants.
  split; [by intros parsed -> |]. split; [by intros -> |]. split; [by intros -> |].
  done.
Qed.

Lemma saveAssistant_keeps_store_in_sync_witness :
  assistant_of
    (saveAssistant (Str (u "cliente123")) (u "Aja como civilista.") sample_state)
    (Str (u "cliente456"))
  = assistant_of (loadAssistants sample_state) (Str (u "cliente456")).
Proof.
  apply (proj1 (proj2 (proj2 (proj2 (saveAssistant_keeps_store_in_sync sample_state
                                       (Str (u "cliente123")) (u "Aja como civilista.")))))).
  vm_compute; discriminate.
Defined.

(** X10. Saving twice for the same tenant leaves the state of a single
    save of the later text; saves for tenants with different property
    keys commute; and two ids with the same string form (the number 5
    and the string "5") share one override, whenever the assignment for
    that key leaves an own property. *)
Theorem saveAssistant_compose (s : state) (X Y : value) (t1 t2 : jsstring) :
  saveAssistant X t2 (saveAssistant X t1 s) = saveAssistant X t2 s
  /\ (to_string X <> to_string Y ->
      saveAssistant X t1 (saveAssistant Y t2 s)
      = saveAssistant Y t2 (saveAssistant X t1 s))
  /\ (to_string X = to_string Y ->
      to_string X <> PROTO \/ is_Some (assistants (loadAssistants s) !! to_string X) ->
      assistant_of (saveAssistant X t1 s) Y = Str t1).
Proof.
  split; [| split].
  - rewrite !saveAssistant_unfold. simpl.
    apply state_eq; simpl; try reflexivity.
    + by rewrite assign_twice.
    + by rewrite assign_twice.
  - intros Hne. rewrite !saveAssistant_unfold. simpl.
    apply state_eq; simpl; try reflexivity.
    + by apply assign_commute.
    + f_equal. by apply assign_commute.
  - intros Heq Hok. rewrite saveAssistant_unfold. unfold assistant_of, read. simpl.
    rewrite assign_own by exact Hok.
    by rewrite <- Heq, lookup_insert_eq.
Qed.

Lemma saveAssistant_compose_witness :
  assistant_of (saveAssistant (Num (u "5")) (u "Aja como civilista.") sample_state)
    (Str (u "5"))
  = Str (u "Aja como civilista.").
Proof.
  apply (proj2 (proj2 (saveAssistant_compose sample_state (Num (u "5")) (Str (u "5"))
                         (u "Aja como civilista.") []))).
  - reflexivity.
  - left. vm_compute. discriminate.
Defined.

(** ** /api/save-key beyond the successful save *)

Lemma fmap_alter_invariant {A B} (g : A -> B) (f : A -> A) (l : list A) (n : nat) :
  (forall x, g (f x) = g x) -> g <$> alter f n l = g <$> l.
Proof.
  intros Hgf. revert n.
  induction l as [| x l IH]; intros [| n]; try reflexivity.
  - change (alter f 0%nat (x :: l)) with (f x :: l).
    rewrite !fmap_cons. by rewrite Hgf.
  - change (alter f (S n) (x :: l)) with (x :: alter f n l).
    rewrite !fmap_cons. by rewrite IH.
Qed.

Lemma api_save_key_authenticated `{!Engine} (req : Request.t) (s : state) (r : Client.t) :
  truthy (Request.apiKey req) = true ->
  getClientRecord (clients s) (Request.clientId req) (Request.clientSecret req) = Some r ->
  api_save_key req s
  = match read_allClients s with
    | Throw e => (mkResponse 500 (error_body (error_message e)), s)
    | Ok allClients =>
      let clientIndex :=
        findIndex (same_pair (Request.clientId req) (Request.clientSecret req))
          allClients in
      if (0 <=? clientIndex)%Z then
        let updated :=
          alter (Client.set_openaiApiKey (Request.apiKey req)) (Z.to_nat clientIndex)
            allClients in
        (mkResponse 200
           (Obj [(u "success", Bool true);
                 (u "message", Str (u "API Key salva com sucesso."))]),
         write_clientsFile updated (set_clients updated s))
      else (error 500 "Client found in cache but not in file.", s)
    end.
Proof.
  intros Hkey Hauth.
  destruct (getClientRecord_Some _ _ _ _ Hauth) as (Hid & Hsec & _).
  unfold api_save_key. by rewrite Hid, Hsec, Hkey, Hauth.
Qed.

(** X11. What /api/save-key leaves behind. A request that misses a
    field, or whose credentials match no record in memory, is refused
    with the state as it was. An answer of 200 is given only to an
    authenticated request with an apiKey, and then clients.json holds
    the list in memory, which has the records of the file that was read,
    in the same order and with the same ids and secrets. The handler
    never touches the override store or the environment. *)
Theorem save_key_footprint `{!Engine} (req : Request.t) (s : state) :
  let clientId := Request.clientId req in
  let clientSecret := Request.clientSecret req in
  let answered := api_save_key req s in
  (truthy clientId = false \/ truthy clientSecret = false
   \/ truthy (Request.apiKey req) = false
   \/ getClientRecord (clients s) clientId clientSecret = None ->
   snd answered = s
   /\ (status (fst answered) = 400 \/ status (fst answered) = 401))
  /\ (status (fst answered) = 200 ->
      truthy (Request.apiKey req) = true
      /\ is_Some (getClientRecord (clients s) clientId clientSecret)
      /\ clientsFile (snd answered) = Holds (clients (snd answered))
      /\ exists allClients : list Client.t,
           clientsFile s = Holds allClients
           /\ length (clients (snd answered)) = length allClients
           /\ Client.id <$> clients (snd answered) = Client.id <$> allClients
           /\ Client.secret <$> clients (snd answered) = Client.secret <$> allClients)
  /\ assistants (snd answered) = assistants s
  /\ assistantsFile (snd answered) = assistantsFile s
  /\ OPENAI_API_KEY (snd answered) = OPENAI_API_KEY s.
Proof.
  intros clientId clientSecret answered. unfold answered, api_save_key.
  fold clientId clientSecret.
  destruct (truthy clientId) eqn:Hid; simpl.
  2: { split; [intros _; split; [reflexivity | by left] |].
       split; [intros [=] | done]. }
  destruct (truthy clientSecret) eqn:Hsec; simpl.
  2: { split; [intros _; split; [reflexivity | by left] |].
       split; [intros [=] | done]. }
  destruct (truthy (Request.apiKey req)) eqn:Hkey; simpl.
  2: { split; [intros _; split; [reflexivity | by left] |].
       split; [intros [=] | done]. }
  destruct (getClientRecord _ _ _) as [r |] eqn:Hauth.
  2: { simpl. split; [intros _; split; [reflexivity | by right] |].
       split; [intros [=] | done]. }
  split; [intros [[=] | [[=] | [[=] | [=]]]] |].
  unfold read_allClients.
  destruct (clientsFile s) as [| | allClients] eqn:Hfile.
  - simpl. split; [intros [=] | done].
  - simpl. split; [intros [=] | done].
  - destruct (0 <=? findIndex _ allClients)%Z.
    + simpl. split; [| done].
      intros _. split; [reflexivity |]. split; [by exists r |].
      split; [reflexivity |]. exists allClients.
      split; [reflexivity |]. split; [by rewrite length_alter |].
      split; by apply fmap_alter_invariant.
    + simpl. split; [intros [=] | done].
Qed.

Lemma save_key_footprint_witness :
  snd (api_save_key (H := sample_engine)
         (with_apiKey (Str (u "sk-nova"))
            (with_credentials "cliente456" "senha-errada" empty_request))
         sample_state)
  = sample_state.
Proof.
  apply (proj1 (save_key_footprint (H := sample_engine) _ sample_state)).
  right; right; right. vm_compute. reflexivity.
Defined.

(** X12. An authenticated save-key request whose pair is not found in
    clients.json as it is on disk (the file is gone, or holds no record
    with that id and secret, for instance after the secret was edited
    by hand) is answered 500 "Client found in cache but not in file."; a
    file that cannot be read or parsed gives 500 with the error's
    message. Nothing is written in either case. *)
Theorem save_key_cache_without_file `{!Engine} (req : Request.t) (s : state) (r : Client.t) :
  truthy (Request.apiKey req) = true ->
  getClientRecord (clients s) (Request.clientId req) (Request.clientSecret req) = Some r ->
  (clientsFile s = Missing
   \/ (exists allClients : list Client.t,
          clientsFile s = Holds allClients
          /\ forall c : Client.t,
               c ∈ allClients ->
               ~ (Client.id c = Request.clientId req
                  /\ Client.secret c = Request.clientSecret req)) ->
   api_save_key req s = (error 500 "Client found in cache but not in file.", s))
  /\ (clientsFile s = Unreadable ->
      api_save_key req s = (mkResponse 500 (error_body (error_message ReadError)), s)).
Proof.
  intros Hkey Hauth. rewrite (api_save_key_authenticated _ _ _ Hkey Hauth).
  unfold read_allClients. split.
  - intros [-> | (allClients & -> & Hnone)]; [reflexivity |].
    cbv zeta.
    destruct (Z.leb_spec 0
                (findIndex (same_pair (Request.clientId req) (Request.clientSecret req))
                   allClients)) as [Hge | Hlt]; [| reflexivity].
    destruct (findIndex_lookup _ _ Hge) as (c & Hlook & Hpair & _).
    unfold same_pair in Hpair. apply andb_true_iff in Hpair as [H1 H2].
    destruct (Hnone c).
    + apply list_elem_of_lookup. eauto.
    + split; by apply strict_eq_eq.
  - by intros ->.
Qed.

Lemma save_key_cache_without_file_witness :
  api_save_key (H := sample_engine)
    (with_apiKey (Str (u "sk-nova"))
       (with_credentials "cliente456" "outra-senha" empty_request))
    (remove_clientsFile sample_state)
  = (error 500 "Client found in cache but not in file.", remove_clientsFile sample_state).
Proof.
  apply (proj1 (save_key_cache_without_file (H := sample_engine)
                  (with_apiKey (Str (u "sk-nova"))
                     (with_credentials "cliente456" "outra-senha" empty_request))
                  (remove_clientsFile sample_state) cliente456
                  ltac:(vm_compute; reflexivity) ltac:(vm_compute; reflexivity))).
  left. reflexivity.
Defined.

Lemma save_key_found `{!Engine} (req : Request.t) (s : state) (allClients : list Client.t) :
  truthy (Request.apiKey req) = true ->
  is_Some (getClientRecord (clients s) (Request.clientId req) (Request.clientSecret req)) ->
  clientsFile s = Holds allClients ->
  (exists c : Client.t,
      c ∈ allClients /\ Client.id c = Request.clientId req
      /\ Client.secret c = Request.clientSecret req) ->
  exists (c : Client.t) (updated : list Client.t),
    clients (snd (api_save_key req s)) = updated
    /\ clientsFile (snd (api_save_key req s)) = Holds updated
    /\ OPENAI_API_KEY (snd (api_save_key req s)) = OPENAI_API_KEY s
    /\ getClientRecord updated (Request.clientId req) (Request.clientSecret req)
       = Some (Client.set_openaiApiKey (Request.apiKey req) c).
Proof.
  intros Hkey [r Hauth] Hfile (c0 & Hin & Hid0 & Hsec0).
  destruct (getClientRecord_Some _ _ _ _ Hauth) as (Htid & Htsec & _).
  set (p := same_pair (Request.clientId req) (Request.clientSecret req)).
  assert (p c0 = true) as Hp0.
  { pose proof Hauth as Hm. rewrite getClientRecord_find in Hm by done.
    apply find_some in Hm as [_ Hm].
    unfold matches in Hm. rewrite !andb_true_iff in Hm. destruct Hm as [[H1 _] H2].
    unfold p, same_pair. rewrite Hid0, Hsec0.
    by rewrite (strict_eq_self _ _ H1), (strict_eq_self _ _ H2). }
  pose proof (findIndex_elem p allClients c0 Hin Hp0) as Hge.
  destruct (findIndex_lookup p allClients Hge) as (c & Hlook & Hpc & Hfind).
  rewrite (api_save_key_authenticated _ _ _ Hkey Hauth).
  unfold read_allClients. rewrite Hfile. cbv zeta. fold p.
  destruct (Z.leb_spec 0 (findIndex p allClients)); [| lia].
  exists c. eexists. simpl. do 3 (split; [reflexivity |]).
  rewrite getClientRecord_find by done.
  rewrite (find_ext_bool _ p) by (intros x; by apply matches_same_pair).
  rewrite find_alter_first by done. by rewrite Hfind.
Qed.

(** X13. A key saved through /api/save-key is the key of the tenant's
    next completion call, in the running process and after a restart
    alike. *)
Theorem saved_key_is_used `{!Engine} (req req' : Request.t) (s : state)
    (allClients : list Client.t) :
  truthy (Request.apiKey req) = true ->
  is_Some (getClientRecord (clients s) (Request.clientId req) (Request.clientSecret req)) ->
  clientsFile s = Holds allClients ->
  (exists c : Client.t,
      c ∈ allClients /\ Client.id c = Request.clientId req
      /\ Client.secret c = Request.clientSecret req) ->
  Request.clientId req' = Request.clientId req ->
  Request.clientSecret req' = Request.clientSecret req ->
  truthy (Request.prompt req') = true ->
  let saved := snd (api_save_key req s) in
  (exists (c : Call.t) (s1 : state) (k : upstream -> state -> response * state),
      api_ia req' saved = Await c s1 k /\ Call.apiKey c = Request.apiKey req)
  /\ (exists (c : Call.t) (s1 : state) (k : upstream -> state -> response * state),
        api_ia req' (restart saved) = Await c s1 k
        /\ Call.apiKey c = Request.apiKey req).
Proof.
  intros Hkey Hauth Hfile Hfound Hid' Hsec' Hprompt saved.
  destruct (save_key_found _ _ _ Hkey Hauth Hfile Hfound)
    as (c & updated & Hclients & Hdisk & Henv & Hget).
  fold saved in Hclients, Hdisk, Henv.
  destruct (getClientRecord_Some _ _ _ _ Hget) as (Htid & Htsec & _).
  assert (forall st : state,
             clients st = updated ->
             exists (c : Call.t) (s1 : state) (k : upstream -> state -> response * state),
               api_ia req' st = Await c s1 k /\ Call.apiKey c = Request.apiKey req)
    as Huse.
  { intros st Hst. unfold api_ia.
    rewrite Hid', Hsec', Hst, Htid, Htsec, Hget, Hprompt. simpl.
    unfold js_or at 1. rewrite Hkey. simpl.
    unfold js_or at 1. rewrite Hkey. simpl.
    do 3 eexists. split; reflexivity. }
  split; [by apply Huse |].
  apply Huse. unfold restart, startup, loadAssistants. rewrite Hdisk.
  by destruct (assistantsFile saved).
Qed.

Lemma saved_key_is_used_witness :
  let req := with_apiKey (Str (u "sk-nova"))
               (with_credentials "cliente789" "terceira-senha" empty_request) in
  let req' := with_prompt "Resuma isto"
                (with_credentials "cliente789" "terceira-senha" empty_request) in
  exists (c : Call.t) (s1 : state) (k : upstream -> state -> response * state),
    api_ia (H := sample_engine) req'
      (restart (snd (api_save_key (H := sample_engine) req sample_state)))
    = Await c s1 k
    /\ Call.apiKey c = Str (u "sk-nova").
Proof.
  intros req req'.
  apply (proj2 (saved_key_is_used (H := sample_engine) req req' sample_state sample_clients
                  ltac:(vm_compute; reflexivity)
                  ltac:(exists cliente789; vm_compute; reflexivity)
                  eq_refl
                  ltac:(exists cliente789; split;
                          [unfold sample_clients; set_solver | split; reflexivity])
                  eq_refl eq_refl ltac:(vm_compute; reflexivity))).
Defined.

(** ** Overrides are read from disk on every /api/ia request *)

(** X14. The system prompt of an /api/ia call is decided by
    assistants.json as it is on disk at that moment. The handler first
    reloads: the mapping of the file replaces the one in memory when the
    file parses, the mapping in memory is emptied when the file cannot
    be parsed, and only when there is no file does the mapping in memory
    stay. The system prompt is then what [assistants[clientId]] reads in
    that mapping, or the default persona when that is falsy: the
    tenant's own entry when it is a non-empty text, the default persona
    when the entry is the empty string, and, when the tenant has no
    entry, the default persona unless the id is the name of a member of
    Object.prototype, in which case the inherited member is sent. *)
Theorem generate_reads_overrides_from_disk `{!Engine} (req : Request.t) (s s1 : state)
    (c : Call.t) (k : upstream -> state -> response * state) :
  api_ia req s = Await c s1 k ->
  let key := to_string (Request.clientId req) in
  let user := (u "user", Str (fullPrompt (Request.prompt req) (Request.selectedText req))) in
  let system := js_or (read (assistants s1) key) (Str DEFAULT_SYSTEM_PROMPT) in
  Call.messages c = [(u "system", system); user]
  /\ (forall parsed : gmap jsstring value,
        assistantsFile s = Holds parsed -> assistants s1 = parsed)
  /\ (assistantsFile s = Unreadable -> assistants s1 = ∅)
  /\ (assistantsFile s = Missing -> assistants s1 = assistants s)
  /\ (forall text : jsstring,
        text <> [] -> assistants s1 !! key = Some (Str text) -> system = Str text)
  /\ (assistants s1 !! key = Some (Str []) -> system = Str DEFAULT_SYSTEM_PROMPT)
  /\ (assistants s1 !! key = None -> inherited key = false ->
      system = Str DEFAULT_SYSTEM_PROMPT)
  /\ (assistants s1 !! key = None -> inherited key = true -> system = Builtin key).
Proof.
  intros Hrun key user system.
  destruct (api_ia_await _ _ _ _ _ Hrun) as (r & _ & _ & _ & -> & -> & _).
  unfold system, assistant_of. fold key. simpl.
  split; [reflexivity |].
  split; [unfold loadAssistants; by intros parsed -> |].
  split; [unfold loadAssistants; by intros -> |].
  split; [unfold loadAssistants; by intros -> |].
  unfold read.
  split.
  { intros text Hne ->. unfold js_or. apply truthy_Str in Hne. by rewrite Hne. }
  split; [by intros -> |].
  split; by intros -> ->.
Qed.

Lemma generate_reads_overrides_from_disk_witness :
  match api_ia (H := sample_engine)
          (with_prompt "Resuma isto"
             (with_credentials "cliente456" "outra-senha" empty_request))
          (saveAssistant (Str (u "cliente456")) (u "Aja como civilista.") sample_state)
  with
  | Await c _ _ =>
    Call.messages c
    = [(u "system", Str (u "Aja como civilista."));
       (u "user", Str (fullPrompt (Str (u "Resuma isto")) Undefined))]
  | Respond _ _ => False
  end.
Proof.
  assert (awaits (api_ia (H := sample_engine)
                    (with_prompt "Resuma isto"
                       (with_credentials "cliente456" "outra-senha" empty_request))
                    (saveAssistant (Str (u "cliente456")) (u "Aja como civilista.")
                       sample_state)) = true) as Hawaits by (vm_compute; reflexivity).
  destruct (api_ia _ _) as [resp s1 | c s1 k] eqn:Hrun; [discriminate |].
  destruct (generate_reads_overrides_from_disk (H := sample_engine) _ _ _ _ _ Hrun)
    as (Hmessages & Hparsed & _ & _ & Hown & _).
  rewrite Hmessages. f_equal. f_equal.
  apply Hown; [vm_compute; discriminate |].
  rewrite (Hparsed _ eq_refl). vm_compute. reflexivity.
Defined.

(** ** A server without a client list *)

(** X15. A process started while clients.json is missing or cannot be
    parsed has an empty client list: it never calls the completion API
    and never writes a key; every request is answered 400 or 401. *)
Theorem no_client_list_no_service `{!Engine} (cf : file (list Client.t))
    (af : file (gmap jsstring value)) (env : value) (req : Request.t) :
  cf = Missing \/ cf = Unreadable ->
  let s := startup cf af env in
  let refused (resp : response) := status resp = 400 \/ status resp = 401 in
  clients s = []
  /\ (exists resp : response, api_ia req s = Respond resp s /\ refused resp)
  /\ (exists resp : response, api_configure req s = Respond resp s /\ refused resp)
  /\ (exists resp : response, api_analyze req s = Respond resp s /\ refused resp)
  /\ (exists resp : response, api_save_key req s = (resp, s) /\ refused resp).
Proof.
  intros Hcf s refused.
  assert (clients s = []) as Hclients.
  { unfold s, startup, loadAssistants. simpl.
    destruct af; simpl; by destruct Hcf as [-> | ->]. }
  assert (getClientRecord (clients s) (Request.clientId req) (Request.clientSecret req)
          = None) as Hnone.
  { rewrite Hclients. unfold getClientRecord. by destruct (_ || _). }
  split; [exact Hclients |].
  unfold api_ia, api_configure, api_analyze, api_save_key, refused. rewrite Hnone.
  destruct (negb (truthy (Request.clientId req)) || negb (truthy (Request.clientSecret req)));
    [| destruct (negb (truthy (Request.apiKey req)))];
    (repeat split; eexists; (split; [reflexivity |]); simpl;
     first [by left | by right]).
Qed.

Lemma no_client_list_no_service_witness :
  clients (startup Unreadable Missing (Str (u "sk-env"))) = [].
Proof.
  apply (no_client_list_no_service (H := sample_engine) Unreadable Missing
           (Str (u "sk-env")) empty_request).
  by right.
Defined.

(** ** Returned texts are trimmed *)

Lemma trimStart_idempotent (s : jsstring) : trimStart (trimStart s) = trimStart s.
Proof.
  induction s as [| c r IH]; simpl; [reflexivity |].
  destruct (is_white_space c) eqn:Hc; [exact IH |]. simpl. by rewrite Hc.
Qed.

Lemma trimStart_nil_or_clean (s : jsstring) :
  trimStart s = [] \/ clean_start (trimStart s) = true.
Proof.
  induction s as [| c r IH]; simpl; [by left |].
  destruct (is_white_space c) eqn:Hc; [exact IH |]. right. simpl. by rewrite Hc.
Qed.

Lemma trimStart_keeps_last (l : jsstring) (c : N) :
  is_white_space c = false -> exists l' : jsstring, trimStart (l ++ [c]) = l' ++ [c].
Proof.
  intros Hc. induction l as [| a l IH]; simpl.
  - exists []. by rewrite Hc.
  - destruct (is_white_space a); [exact IH |]. by exists (a :: l).
Qed.

Lemma trimEnd_clean_start (s : jsstring) :
  clean_start s = true -> clean_start (trimEnd s) = true.
Proof.
  destruct s as [| c r]; simpl; [discriminate |].
  intros Hc. apply negb_true_iff in Hc.
  unfold trimEnd. simpl.
  destruct (trimStart_keeps_last (rev r) c Hc) as [l' ->].
  rewrite rev_app_distr. simpl. by rewrite Hc.
Qed.

Lemma trimEnd_idempotent (s : jsstring) : trimEnd (trimEnd s) = trimEnd s.
Proof. unfold trimEnd. by rewrite rev_involutive, trimStart_idempotent. Qed.

Lemma trim_idempotent (s : jsstring) : trim (trim s) = trim s.
Proof.
  unfold trim.
  destruct (trimStart_nil_or_clean s) as [-> | Hclean]; [reflexivity |].
  rewrite (trimStart_clean (trimEnd (trimStart s))) by by apply trimEnd_clean_start.
  apply trimEnd_idempotent.
Qed.

Lemma content_or_result `{!Engine} (fallback : jsstring) (completion : value)
    (p : jsstring) :
  content_or fallback completion = Ok p ->
  p = fallback \/ exists t : jsstring, p = trim t.
Proof.
  unfold content_or.
  destruct (truthy completion); [| intros [= <-]; by left].
  destruct (get completion (u "choices")) as [choices | e]; simpl; [| discriminate].
  destruct (truthy choices && length_gt_zero choices); [| intros [= <-]; by left].
  destruct (get (first choices) (u "message")) as [message | e]; simpl; [| discriminate].
  destruct (get message (u "content")) as [content | e]; simpl; [| discriminate].
  destruct (truthy content); [| intros [= <-]; by left].
  destruct content; simpl; try discriminate.
  intros [= <-]. right. by eexists.
Qed.

(** X16. Every text the server returns has no white space at either
    end: the [text] of /api/ia, the [optimizedPrompt] of /api/configure
    (which is also what is saved) and the [analysis] of /api/analyze are
    fixed points of [trim], so that trimming them again, as the task
    pane does with [data.text], changes nothing. *)
Theorem returned_texts_are_trimmed `{!Engine} (completion : value) (text : jsstring) :
  answer completion = Ok (Str text)
  \/ content_or OPTIMIZED_FALLBACK completion = Ok text
  \/ content_or ANALYSIS_FALLBACK completion = Ok text ->
  trim text = text.
Proof.
  intros [Hanswer | [Hc | Hc]].
  - destruct (answer_cases completion) as [(t & _ & Ht) | [_ Ht]];
      rewrite Ht in Hanswer; injection Hanswer as <-.
    + apply trim_idempotent.
    + vm_compute; reflexivity.
  - destruct (content_or_result _ _ _ Hc) as [-> | [t ->]].
    + vm_compute; reflexivity.
    + apply trim_idempotent.
  - destruct (content_or_result _ _ _ Hc) as [-> | [t ->]].
    + vm_compute; reflexivity.
    + apply trim_idempotent.
Qed.

Lemma returned_texts_are_trimmed_witness :
  trim (u "Prezado cliente, segue a minuta.") = u "Prezado cliente, segue a minuta.".
Proof.
  apply (returned_texts_are_trimmed (H := sample_engine)
           (completion_with (Str (u "  Prezado cliente, segue a minuta.
")))).
  left. vm_compute; reflexivity.
Defined.

(** ** /api/save-key and the other tenants *)

Lemma find_alter_elsewhere {A} (p : A -> bool) (f : A -> A) (l : list A) (n : nat) :
  (forall x, p (f x) = p x) ->
  (forall x, l !! n = Some x -> p x = false) ->
  List.find p (alter f n l) = List.find p l.
Proof.
  intros Hpf. revert n.
  induction l as [| a l IH]; intros [| n] Hn; try reflexivity.
  - change (alter f 0%nat (a :: l)) with (f a :: l). simpl.
    rewrite Hpf. by rewrite (Hn a eq_refl).
  - change (alter f (S n) (a :: l)) with (a :: alter f n l). simpl.
    destruct (p a); [reflexivity |]. apply IH. intros x Hx. by apply Hn.
Qed.

(** X17. A successful /api/save-key replaces the client list in memory
    by the records of clients.json and changes only the saver's record:
    for any other pair of credentials the next lookup answers exactly
    as a lookup in the file as it was read. Records added to or removed
    from clients.json by hand thus take effect without a restart, and
    no other tenant's record is altered. *)
Theorem save_key_refreshes_other_tenants `{!Engine} (req : Request.t) (s : state)
    (allClients : list Client.t) (clientId' clientSecret' : value) :
  truthy (Request.apiKey req) = true ->
  is_Some (getClientRecord (clients s) (Request.clientId req) (Request.clientSecret req)) ->
  clientsFile s = Holds allClients ->
  (exists c : Client.t,
      c ∈ allClients /\ Client.id c = Request.clientId req
      /\ Client.secret c = Request.clientSecret req) ->
  ~ (clientId' = Request.clientId req /\ clientSecret' = Request.clientSecret req) ->
  getClientRecord (clients (snd (api_save_key req s))) clientId' clientSecret'
  = getClientRecord allClients clientId' clientSecret'.
Proof.
  intros Hkey [r Hauth] Hfile (c0 & Hin & Hid0 & Hsec0) Hother.
  destruct (getClientRecord_Some _ _ _ _ Hauth) as (Htid & Htsec & _).
  set (p := same_pair (Request.clientId req) (Request.clientSecret req)).
  assert (p c0 = true) as Hp0.
  { pose proof Hauth as Hm. rewrite getClientRecord_find in Hm by done.
    apply find_some in Hm as [_ Hm].
    unfold matches in Hm. rewrite !andb_true_iff in Hm. destruct Hm as [[H1 _] H2].
    unfold p, same_pair. rewrite Hid0, Hsec0.
    by rewrite (strict_eq_self _ _ H1), (strict_eq_self _ _ H2). }
  pose proof (findIndex_elem p allClients c0 Hin Hp0) as Hge.
  destruct (findIndex_lookup p allClients Hge) as (c & Hlook & Hpc & _).
  rewrite (api_save_key_authenticated _ _ _ Hkey Hauth).
  unfold read_allClients. rewrite Hfile. cbv zeta. fold p.
  destruct (Z.leb_spec 0 (findIndex p allClients)); [| lia]. simpl.
  unfold getClientRecord.
  destruct (negb (truthy clientId') || negb (truthy clientSecret')); [reflexivity |].
  apply find_alter_elsewhere; [done |].
  intros x Hx. rewrite Hlook in Hx. injection Hx as <-.
  destruct (matches clientId' clientSecret' c) eqn:Hm; [| reflexivity].
  unfold matches in Hm. rewrite !andb_true_iff in Hm. destruct Hm as [[H1 _] H2].
  unfold p, same_pair in Hpc. apply andb_true_iff in Hpc as [H3 H4].
  apply strict_eq_eq in H1, H2, H3, H4. destruct Hother. split; congruence.
Qed.

Lemma save_key_refreshes_other_tenants_witness :
  getClientRecord
    (clients (snd (api_save_key (H := sample_engine)
                     (with_apiKey (Str (u "sk-nova"))
                        (with_credentials "cliente456" "outra-senha" empty_request))
                     sample_state)))
    (Str (u "cliente123")) (Str (u "minha-senha-secreta"))
  = getClientRecord sample_clients (Str (u "cliente123")) (Str (u "minha-senha-secreta")).
Proof.
  apply (save_key_refreshes_other_tenants (H := sample_engine)
           (with_apiKey (Str (u "sk-nova"))
              (with_credentials "cliente456" "outra-senha" empty_request))
           sample_state sample_clients).
  - vm_compute; reflexivity.
  - exists cliente456. vm_compute; reflexivity.
  - reflexivity.
  - exists cliente456. split; [unfold sample_clients; set_solver | split; reflexivity].
  - intros [Hid _]. vm_compute in Hid. discriminate.
Defined.

(** * The task pane

    ** Reading the credentials from the query string *)

Lemma split_nonempty (separator : N) (s : jsstring) : Taskpane.split separator s <> [].
Proof.
  destruct s as [| c r]; simpl; [discriminate |].
  destruct (c =? separator); [discriminate |].
  by destruct (Taskpane.split separator r).
Qed.

Lemma split_plain (separator : N) (s : jsstring) :
  separator ∉ s -> Taskpane.split separator s = [s].
Proof.
  induction s as [| c r IH]; simpl; [reflexivity |].
  intros Hnot. apply not_elem_of_cons in Hnot as [Hne Hr].
  destruct (N.eqb_spec c separator) as [-> | _]; [done |].
  by rewrite (IH Hr).
Qed.

Lemma split_app (separator : N) (a b : jsstring) :
  separator ∉ a ->
  Taskpane.split separator (a ++ separator :: b) = a :: Taskpane.split separator b.
Proof.
  induction a as [| c r IH]; simpl; intros Hnot.
  - by rewrite N.eqb_refl.
  - apply not_elem_of_cons in Hnot as [Hne Hr].
    destruct (N.eqb_spec c separator) as [-> | _]; [done |].
    by rewrite (IH Hr).
Qed.

Lemma split_separator_length (separator : N) (s : jsstring) :
  separator ∈ s -> (2 <= length (Taskpane.split separator s))%nat.
Proof.
  induction s as [| c r IH]; intros Hin; [by apply elem_of_nil in Hin |].
  simpl. destruct (N.eqb_spec c separator) as [-> | Hne].
  - simpl. pose proof (split_nonempty separator r).
    destruct (Taskpane.split separator r); [done | simpl; lia].
  - apply elem_of_cons in Hin as [-> | Hin]; [done |].
    specialize (IH Hin).
    destruct (Taskpane.split separator r); simpl in *; lia.
Qed.

Lemma plain_spec (s : jsstring) :
  Taskpane.plain s = true -> (37 ∉ s) /\ (38 ∉ s) /\ (61 ∉ s).
Proof.
  induction s as [| c r IH]; simpl.
  - intros _. repeat split; apply not_elem_of_nil.
  - rewrite !andb_true_iff, !negb_true_iff, !N.eqb_neq.
    intros [[[H37 H38] H61] Hr]. destruct (IH Hr) as (? & ? & ?).
    repeat split; apply not_elem_of_cons; split; congruence.
Qed.

Ltac not_in_literal :=
  repeat (apply not_elem_of_cons; split; [discriminate |]); apply not_elem_of_nil.

Lemma absent_code_unit (c : N) (s : jsstring) :
  forallb (fun x => negb (x =? c)) s = true -> c ∉ s.
Proof.
  induction s as [| x r IH]; simpl; [intros _; apply not_elem_of_nil |].
  rewrite andb_true_iff, negb_true_iff, N.eqb_neq. intros [Hx Hr].
  apply not_elem_of_cons. split; [congruence | by apply IH].
Qed.

Lemma present_code_unit (c : N) (s : jsstring) :
  existsb (fun x => x =? c) s = true -> c ∈ s.
Proof.
  induction s as [| x r IH]; simpl; [discriminate |].
  rewrite orb_true_iff, N.eqb_eq. intros [-> | Hr].
  - apply list_elem_of_here.
  - apply list_elem_of_further. by apply IH.
Qed.

Lemma literal_question_cid : u "?cid=" = 63 :: u "cid" ++ [61].
Proof. vm_compute. reflexivity. Qed.

Lemma literal_amp_token : u "&token=" = 38 :: u "token" ++ [61].
Proof. vm_compute. reflexivity. Qed.

Lemma literal_cid : u "cid" = [99; 105; 100].
Proof. vm_compute. reflexivity. Qed.

Lemma literal_token : u "token" = [116; 111; 107; 101; 110].
Proof. vm_compute. reflexivity. Qed.

Lemma query_of_documented_url (i t : jsstring) :
  38 ∉ i ->
  Taskpane.split 38 (drop 1 (u "?cid=" ++ i ++ u "&token=" ++ t))
  = (u "cid" ++ 61 :: i) :: Taskpane.split 38 (u "token" ++ 61 :: t).
Proof.
  intros Hi. rewrite literal_question_cid, literal_amp_token. simpl.
  replace ((u "cid" ++ [61]) ++ i ++ 38 :: (u "token" ++ [61]) ++ t)
    with ((u "cid" ++ 61 :: i) ++ 38 :: (u "token" ++ 61 :: t))
    by (rewrite <- !app_assoc; reflexivity).
  apply split_app. rewrite literal_cid.
  repeat (apply not_elem_of_cons; split; [discriminate |]). exact Hi.
Qed.

Lemma segment_of_documented_url `{!Taskpane.Browser} (name val : jsstring) :
  61 ∉ name -> 37 ∉ name -> 61 ∉ val -> 37 ∉ val ->
  Taskpane.split 61 (name ++ 61 :: val) = [name; val]
  /\ Taskpane.decodeURIComponent name = Some name
  /\ Taskpane.decodeURIComponent val = Some val.
Proof.
  intros Hn61 Hn37 Hv61 Hv37.
  rewrite split_app by done. rewrite split_plain by done.
  split; [reflexivity |]. split; by apply Taskpane.decodeURIComponent_plain.
Qed.

(** X18. For the URL form of the README,
    [?cid=<id>&token=<secret>] with an id and a secret that contain no
    percent sign, ampersand or equals sign, [getQueryParams] returns
    exactly these two parameters, and the pane wires its buttons with
    them when both are non-empty and shows its missing-parameters error
    otherwise. *)
Theorem documented_url_is_read `{!Taskpane.Browser} (i t : jsstring) :
  Taskpane.plain i = true -> Taskpane.plain t = true ->
  let search := u "?cid=" ++ i ++ u "&token=" ++ t in
  Taskpane.getQueryParams search = Some (<[u "token" := t]> {[u "cid" := i]})
  /\ (i <> [] -> t <> [] -> Taskpane.onReady search = Some (Some (i, t)))
  /\ (i = [] \/ t = [] -> Taskpane.onReady search = Some None).
Proof.
  intros Hi Ht search.
  apply plain_spec in Hi as (Hi37 & Hi38 & Hi61).
  apply plain_spec in Ht as (Ht37 & Ht38 & Ht61).
  assert ((61 ∉ u "cid") /\ (37 ∉ u "cid") /\ (61 ∉ u "token") /\ (37 ∉ u "token")
          /\ (38 ∉ u "token")) as (Hc61 & Hc37 & Hk61 & Hk37 & Hk38)
    by (rewrite literal_cid, literal_token; repeat split; not_in_literal).
  destruct (segment_of_documented_url (u "cid") i Hc61 Hc37 Hi61 Hi37)
    as (Hs1 & Hd1 & Hd2).
  destruct (segment_of_documented_url (u "token") t Hk61 Hk37 Ht61 Ht37)
    as (Hs2 & Hd3 & Hd4).
  assert (Taskpane.getQueryParams search = Some (<[u "token" := t]> {[u "cid" := i]}))
    as Hparams.
  { unfold Taskpane.getQueryParams, search. cbv zeta.
    rewrite query_of_documented_url by done.
    rewrite (split_plain 38 (u "token" ++ 61 :: t)).
    2: { apply not_elem_of_app. split; [exact Hk38 |].
         apply not_elem_of_cons. split; [discriminate | exact Ht38]. }
    simpl. rewrite Hs1, Hd1. simpl. rewrite Hd2. simpl.
    rewrite Hs2, Hd3. simpl. rewrite Hd4. reflexivity. }
  split; [exact Hparams |].
  assert (u "token" <> u "cid") as Hne
    by (rewrite literal_token, literal_cid; discriminate).
  unfold Taskpane.onReady. rewrite Hparams. simpl.
  rewrite lookup_insert_ne by done. rewrite lookup_singleton_eq, lookup_insert_eq.
  split.
  - intros Hin Htn. apply truthy_Str in Hin, Htn. simpl in Hin, Htn.
    by rewrite Hin, Htn.
  - intros [-> | ->]; [reflexivity |]. by rewrite orb_true_r.
Qed.

Lemma documented_url_is_read_witness :
  Taskpane.onReady (H := Taskpane.strict_browser)
    (u "?cid=" ++ u "cliente123" ++ u "&token=" ++ u "minha-senha-secreta")
  = Some (Some (u "cliente123", u "minha-senha-secreta")).
Proof.
  apply (proj1 (proj2 (documented_url_is_read (H := Taskpane.strict_browser)
                         (u "cliente123") (u "minha-senha-secreta")
                         ltac:(vm_compute; reflexivity) ltac:(vm_compute; reflexivity)))).
  - vm_compute; discriminate.
  - vm_compute; discriminate.
Defined.

(** X19. A secret that contains an unescaped equals sign is not read:
    its segment splits into more than two pieces and is skipped, so the
    pane finds no token, shows its missing-parameters error and wires
    no button, whatever the id. *)
Theorem unescaped_equals_sign_loses_token `{!Taskpane.Browser} (i t : jsstring) :
  Taskpane.plain i = true -> 38 ∉ t -> 61 ∈ t ->
  let search := u "?cid=" ++ i ++ u "&token=" ++ t in
  Taskpane.getQueryParams search = Some {[u "cid" := i]}
  /\ Taskpane.onReady search = Some None.
Proof.
  intros Hi Ht38 Ht61 search.
  apply plain_spec in Hi as (Hi37 & Hi38 & Hi61).
  assert ((61 ∉ u "cid") /\ (37 ∉ u "cid") /\ (61 ∉ u "token") /\ (38 ∉ u "token"))
    as (Hc61 & Hc37 & Hk61 & Hk38)
    by (rewrite literal_cid, literal_token; repeat split; not_in_literal).
  destruct (segment_of_documented_url (u "cid") i Hc61 Hc37 Hi61 Hi37)
    as (Hs1 & Hd1 & Hd2).
  assert (Taskpane.getQueryParams search = Some {[u "cid" := i]}) as Hparams.
  { unfold Taskpane.getQueryParams, search. cbv zeta.
    rewrite query_of_documented_url by done.
    rewrite (split_plain 38 (u "token" ++ 61 :: t)).
    2: { apply not_elem_of_app. split; [exact Hk38 |].
         apply not_elem_of_cons. split; [discriminate | exact Ht38]. }
    simpl. rewrite Hs1, Hd1. simpl. rewrite Hd2. simpl.
    rewrite (split_app 61 (u "token") t) by done.
    pose proof (split_separator_length 61 t Ht61) as Hlen.
    destruct (Taskpane.split 61 t) as [| a [| b rest]]; simpl in Hlen; try lia.
    reflexivity. }
  split; [exact Hparams |].
  assert (u "cid" <> u "token") as Hne
    by (rewrite literal_token, literal_cid; discriminate).
  unfold Taskpane.onReady. rewrite Hparams. simpl.
  rewrite lookup_singleton_eq. by rewrite lookup_singleton_ne.
Qed.

Lemma unescaped_equals_sign_loses_token_witness :
  Taskpane.onReady (H := Taskpane.strict_browser)
    (u "?cid=" ++ u "cliente123" ++ u "&token=" ++ u "c2VncmVkbw==")
  = Some None.
Proof.
  apply (unescaped_equals_sign_loses_token (H := Taskpane.strict_browser)
           (u "cliente123") (u "c2VncmVkbw==")).
  - vm_compute; reflexivity.
  - apply absent_code_unit. vm_compute; reflexivity.
  - apply present_code_unit. vm_compute; reflexivity.
Defined.

(** ** The requests the task pane sends *)

(** X20. A request the task pane sends is never rejected for a missing
    field. With the non-empty credentials the pane is wired with, the
    body built by [runIA], [configureAssistant] or [analyzeDocument]
    either reaches the completion call or is answered 401 (unknown
    credentials) or 500 (no key), never 400; the body built by
    [saveApiKeyOnly] is never answered 400 either. The pane sends
    nothing when the trimmed prompt, role description or key is empty,
    or when the document is blank (white space only). *)
Theorem pane_requests_pass_validation `{!Engine} (clientId clientSecret : jsstring)
    (s : state) :
  clientId <> [] -> clientSecret <> [] ->
  (forall (promptValue mode : jsstring) (selection : option jsstring)
          (req : Request.t) (resp : response) (s' : state),
      Taskpane.runIA clientId clientSecret promptValue mode selection = Some req ->
      api_ia req s = Respond resp s' -> status resp = 401 \/ status resp = 500)
  /\ (forall (roleDescription : jsstring) (req : Request.t) (resp : response) (s' : state),
        Taskpane.configureAssistant clientId clientSecret roleDescription = Some req ->
        api_configure req s = Respond resp s' -> status resp = 401 \/ status resp = 500)
  /\ (forall (bodyText : option jsstring) (req : Request.t) (resp : response) (s' : state),
        Taskpane.analyzeDocument clientId clientSecret bodyText = Some req ->
        api_analyze req s = Respond resp s' -> status resp = 401 \/ status resp = 500)
  /\ (forall (apiKeyInput : jsstring) (req : Request.t),
        Taskpane.saveApiKeyOnly clientId clientSecret apiKeyInput = Some req ->
        status (fst (api_save_key req s)) <> 400)
  /\ (forall blank : jsstring,
        trim blank = [] ->
        (forall (mode : jsstring) (selection : option jsstring),
            Taskpane.runIA clientId clientSecret blank mode selection = None)
        /\ Taskpane.configureAssistant clientId clientSecret blank = None
        /\ Taskpane.saveApiKeyOnly clientId clientSecret blank = None
        /\ Taskpane.analyzeDocument clientId clientSecret (Some blank) = None).
Proof.
  intros Hid Hsec. apply truthy_Str in Hid, Hsec.
  split; [| split; [| split; [| split]]].
  - intros promptValue mode selection req resp s'. unfold Taskpane.runIA.
    destruct (truthy (Str (trim promptValue))) eqn:Hprompt; [| discriminate].
    destruct selection as [selectedText |]; [| discriminate].
    simpl. intros [= <-]. unfold api_ia.
    cbn [Request.clientId Request.clientSecret Request.prompt].
    rewrite Hid, Hsec, Hprompt. simpl.
    destruct (getClientRecord _ _ _) as [r |]; [| intros [= <- _]; by left].
    destruct (truthy (js_or _ _)); simpl; [discriminate |].
    intros [= <- _]. by right.
  - intros roleDescription req resp s'. unfold Taskpane.configureAssistant.
    destruct (truthy (Str (trim roleDescription))) eqn:Hraw; [| discriminate].
    simpl. intros [= <-]. unfold api_configure.
    cbn [Request.clientId Request.clientSecret Request.rawPrompt].
    rewrite Hid, Hsec, Hraw. simpl.
    destruct (getClientRecord _ _ _) as [r |]; [| intros [= <- _]; by left].
    destruct (truthy (js_or _ _)); simpl; [discriminate |].
    intros [= <- _]. by right.
  - intros bodyText req resp s'. unfold Taskpane.analyzeDocument.
    destruct bodyText as [documentText |]; [| discriminate].
    destruct (truthy (Str documentText)) eqn:Hdoc; [| discriminate].
    destruct (truthy (Str (trim documentText))); [| discriminate].
    simpl. intros [= <-]. unfold api_analyze.
    cbn [Request.clientId Request.clientSecret Request.documentText].
    rewrite Hid, Hsec, Hdoc. simpl.
    destruct (getClientRecord _ _ _) as [r |]; [| intros [= <- _]; by left].
    destruct (truthy (js_or _ _)); simpl; [discriminate |].
    intros [= <- _]. by right.
  - intros apiKeyInput req. unfold Taskpane.saveApiKeyOnly.
    destruct (truthy (Str (trim apiKeyInput))) eqn:Hkey; [| discriminate].
    simpl. intros [= <-]. unfold api_save_key.
    cbn [Request.clientId Request.clientSecret Request.apiKey].
    rewrite Hid, Hsec, Hkey. simpl.
    destruct (getClientRecord _ _ _) as [r |]; [| simpl; discriminate].
    destruct (read_allClients s) as [allClients | e]; [| simpl; discriminate].
    destruct (0 <=? _)%Z; simpl; discriminate.
  - intros blank Hblank.
    unfold Taskpane.runIA, Taskpane.configureAssistant, Taskpane.saveApiKeyOnly,
      Taskpane.analyzeDocument.
    rewrite Hblank. simpl. split; [reflexivity |]. split; [reflexivity |].
    split; [reflexivity |]. by rewrite orb_true_r.
Qed.

Lemma pane_requests_pass_validation_witness :
  status (fst (api_save_key (H := sample_engine)
                 {| Request.clientId := Str (u "cliente456");
                    Request.clientSecret := Str (u "outra-senha");
                    Request.prompt := Undefined; Request.selectedText := Undefined;
                    Request.mode := Undefined; Request.rawPrompt := Undefined;
                    Request.documentText := Undefined;
                    Request.apiKey := Str (u "sk-nova") |}
                 sample_state)) <> 400.
Proof.
  apply (proj1 (proj2 (proj2 (proj2
           (pane_requests_pass_validation (H := sample_engine)
              (u "cliente456") (u "outra-senha") sample_state
              ltac:(vm_compute; discriminate) ltac:(vm_compute; discriminate)))))
           (u " sk-nova ")).
  vm_compute; reflexivity.
Defined.

Lemma answer_text_trimmed (completion : value) (text : jsstring) :
  answer completion = Ok (Str text) -> trim text = text.
Proof.
  intros Hanswer.
  destruct (answer_cases completion) as [(t & _ & Ht) | [_ Ht]];
    rewrite Ht in Hanswer; injection Hanswer as <-.
  - apply trim_idempotent.
  - vm_compute; reflexivity.
Qed.

(** X21. What [runIA] appends to the chat for a 200 response of
    /api/ia is exactly the text the server extracted from the
    completion (its fallback sentence included): the pane's own
    [(data.text || '').trim()] changes nothing. A rejected completion
    call reaches the pane as a response that is not ok, and no text is
    appended. *)
Theorem pane_displays_server_text `{!Engine} (req : Request.t) (s s1 s2 : state)
    (c : Call.t) (k : upstream -> state -> response * state) :
  api_ia req s = Await c s1 k ->
  (forall completion : value,
      exists text : jsstring,
        answer completion = Ok (Str text)
        /\ Taskpane.aiText (fst (k (Resolves completion) s2)) = Some (Ok text))
  /\ (forall message : value,
        Taskpane.aiText (fst (k (Rejects message) s2)) = None).
Proof.
  intros Hrun.
  destruct (api_ia_await _ _ _ _ _ Hrun) as (r & _ & _ & _ & _ & _ & Hrej & Hres).
  split.
  - intros completion. destruct (Hres completion s2) as (text & Hanswer & ->).
    exists text. split; [exact Hanswer |].
    unfold Taskpane.aiText. simpl. unfold own_property. simpl.
    rewrite jsstring_eqb_refl. simpl. unfold js_or.
    destruct (truthy (Str text)) eqn:Htruthy; simpl.
    + by rewrite (answer_text_trimmed _ _ Hanswer).
    + destruct text as [| x rest]; [reflexivity |]. exfalso.
      assert (truthy (Str (x :: rest)) = true) as Hcons
        by (apply truthy_Str; discriminate).
      congruence.
  - intros message. by rewrite Hrej.
Qed.

Lemma pane_displays_server_text_witness :
  match api_ia (H := sample_engine)
          (with_prompt "Resuma isto"
             (with_credentials "cliente456" "outra-senha" empty_request))
          sample_state
  with
  | Await _ _ k =>
    Taskpane.aiText (fst (k (Rejects (Str (u "401 Incorrect API key"))) sample_state))
    = None
  | Respond _ _ => False
  end.
Proof.
  assert (awaits (api_ia (H := sample_engine)
                    (with_prompt "Resuma isto"
                       (with_credentials "cliente456" "outra-senha" empty_request))
                    sample_state) = true) as Hawaits by (vm_compute; reflexivity).
  destruct (api_ia _ _) as [resp s1 | c s1 k] eqn:Hrun; [discriminate |].
  apply (proj2 (pane_displays_server_text (H := sample_engine) _ _ s1 sample_state c k
                  Hrun)).
Defined.
